(** * shogiutil.usiwrapcli: the UCI <-> USI command translator

    A shallow embedding of [src/shogiutil/usiwrapcli.py] and the properties
    of its translation functions: the square and move transforms, the
    FEN -> SFEN position rewrite with its hand and move-number fields, and
    the two verb-indexed dispatch tables.

    Conventions of the embedding.
    - A Python [str] is a [string]; a character is its code point, and the
      code points of the model are those of Latin-1 (0..255).
    - A command (a Python list of tokens) is a [list string]; [cmd[i] = x]
      is stdpp's [<[i:=x]>], used only below a length guard as in the source.
    - A Python call that may raise returns a [result]: [Ok v], or [Raise e]
      with the exception that escapes it.  [try_except] is the source's
      [try: ... except: ...].
    - [log] writes to standard error only when the module constant [DEBUG]
      is true; [DEBUG] is [False] and is assigned nowhere, so a call of
      [log] has no effect and is left out of the embedding. *)

From Stdlib Require Import ZArith Ascii DecimalString.
From stdpp Require Import base decidable option list gmap strings.

Local Open Scope Z_scope.

(** ** Exceptions *)

Inductive exn : Set :=
  | IndexError
  | ValueError.

Inductive result (A : Type) : Type :=
  | Ok (a : A)
  | Raise (e : exn).

Arguments Ok {A} a.
Arguments Raise {A} e.

#[global] Instance result_ret : MRet result := @Ok.

#[global] Instance result_bind : MBind result := λ A B f m,
  match m with
  | Ok a => f a
  | Raise e => Raise e
  end.

(** [try: body except Exception: handler] *)
Definition try_except {A} (body : result A) (handler : exn → result A) : result A :=
  match body with
  | Ok a => Ok a
  | Raise e => handler e
  end.

(** ** The Python built-ins the translator calls *)

Module Py.

Definition ord (c : ascii) : Z := Z.of_N (N_of_ascii c).

(** [chr(i)] raises [ValueError] below 0.  The translator only calls it
    on [154 - ord(c)], which never exceeds 154, so the upper end of
    Python's range (0x10FFFF) is out of reach and the model stops at the
    last code point it has. *)
Definition chr (i : Z) : result ascii :=
  if decide (0 ≤ i < 256) then Ok (ascii_of_N (Z.to_N i)) else Raise ValueError.

(** [s[i]] for a constant index [i >= 0] *)
Definition getitem (s : string) (i : nat) : result ascii :=
  match String.get i s with
  | Some c => Ok c
  | None => Raise IndexError
  end.

(** [l[i]] on a list *)
Definition index {A} (l : list A) (i : nat) : result A :=
  match l !! i with
  | Some x => Ok x
  | None => Raise IndexError
  end.

Fixpoint drop (n : nat) (s : string) : string :=
  match n, s with
  | O, _ => s
  | S _, EmptyString => EmptyString
  | S n', String _ s' => drop n' s'
  end.

Fixpoint take (n : nat) (s : string) : string :=
  match n, s with
  | O, _ => EmptyString
  | S _, EmptyString => EmptyString
  | S n', String c s' => String c (take n' s')
  end.

(** [s[lo:hi]] and [s[lo:]]: slices clamp, they never raise. *)
Definition slice (lo hi : nat) (s : string) : string := take (hi - lo) (drop lo s).
Definition slice_from (lo : nat) (s : string) : string := drop lo s.

(** [c in s] for a one-character [c] *)
Fixpoint contains (c : ascii) (s : string) : bool :=
  match s with
  | EmptyString => false
  | String d s' => if decide (d = c) then true else contains c s'
  end.

(** [s.replace(c, '')] for a one-character [c] *)
Fixpoint remove (c : ascii) (s : string) : string :=
  match s with
  | EmptyString => EmptyString
  | String d s' => if decide (d = c) then remove c s' else String d (remove c s')
  end.

(** [s.split(sep)] for a one-character [sep]: one more field than there
    are separators, empty fields kept. *)
Fixpoint split_fields (sep : ascii) (s : string) : string * list string :=
  match s with
  | EmptyString => (EmptyString, [])
  | String c s' =>
      let '(w, ws) := split_fields sep s' in
      if decide (c = sep) then (EmptyString, w :: ws) else (String c w, ws)
  end.

Definition split (sep : ascii) (s : string) : list string :=
  let '(w, ws) := split_fields sep s in w :: ws.

(** [sep.join(l)] *)
Fixpoint join (sep : string) (l : list string) : string :=
  match l with
  | [] => EmptyString
  | [w] => w
  | w :: ws => w +:+ sep +:+ join sep ws
  end.

(** [c.isdigit()] on one character: the ten decimal digits and, in
    Latin-1, the superscripts U+00B2, U+00B3 and U+00B9. *)
Definition is_decimal_char (c : ascii) : bool :=
  bool_decide (48 ≤ ord c ≤ 57).

Definition is_digit_char (c : ascii) : bool :=
  is_decimal_char c
  || bool_decide (ord c = 178) || bool_decide (ord c = 179)
  || bool_decide (ord c = 185).

Fixpoint forall_chars (p : ascii → bool) (s : string) : bool :=
  match s with
  | EmptyString => true
  | String c s' => p c && forall_chars p s'
  end.

(** [s.isdigit()]: false on the empty string. *)
Definition isdigit (s : string) : bool :=
  match s with
  | EmptyString => false
  | _ => forall_chars is_digit_char s
  end.

(** A non-empty string of the digits 0..9. *)
Definition isdecimal (s : string) : bool :=
  match s with
  | EmptyString => false
  | _ => forall_chars is_decimal_char s
  end.

Fixpoint int_digits (acc : Z) (s : string) : result Z :=
  match s with
  | EmptyString => Ok acc
  | String c s' =>
      if is_decimal_char c then int_digits (acc * 10 + (ord c - 48)) s'
      else Raise ValueError
  end.

(** [int(s)] on the strings the translator passes: the literal ['1'] or a
    field that passed [isdigit].  Leading zeros are accepted; a superscript
    digit is not a decimal and raises [ValueError], as does the empty
    string.  (Signs, blanks and underscores, which [int] also reads, do
    not pass [isdigit] and never reach it.  The interpreter's configurable
    limit on the number of digits is not modelled.) *)
Definition int (s : string) : result Z :=
  match s with
  | EmptyString => Raise ValueError
  | _ => int_digits 0 s
  end.

(** [str(n)] *)
Definition str (n : Z) : string := NilZero.string_of_int (Z.to_int n).

(** [c.isspace()] on one character of Latin-1: the controls 9..13 and
    28..31, the space, U+0085 and U+00A0. *)
Definition is_space_char (c : ascii) : bool :=
  bool_decide (9 ≤ ord c ≤ 13) || bool_decide (28 ≤ ord c ≤ 32)
  || bool_decide (ord c = 133) || bool_decide (ord c = 160).

(** [s.rstrip()]: [s] without the white space at its end. *)
Fixpoint rstrip (s : string) : string :=
  match s with
  | EmptyString => EmptyString
  | String c s' =>
      match rstrip s' with
      | EmptyString => if is_space_char c then EmptyString else String c EmptyString
      | r => String c r
      end
  end.

End Py.

(** ** The fixed tables *)

Definition USI_INFO_KEYWORDS : gset string :=
  list_to_set
    ["depth"; "seldepth"; "time"; "nodes"; "pv"; "multipv"; "score"; "cp";
     "mate"; "lowerbound"; "upperbound"; "currmove"; "currmovenumber";
     "hashfull"; "nps"; "cpuload"; "string"; "refutation"; "currline"].

Definition USI_INFO_MOVE_KEYWORDS : gset string :=
  list_to_set ["pv"; "currmove"; "refutation"; "currline"].

Definition USI_TO_UCI_OPTIONS : gmap string string :=
  list_to_map [("USI_Hash", "Hash"); ("USI_Variant", "UCI_Variant")].

Definition UCI_TO_USI_OPTIONS : gmap string string :=
  list_to_map [("Hash", "USI_Hash"); ("UCI_Variant", "USI_Variant")].

Definition HAND_ORDER : list ascii :=
  ["R"; "B"; "G"; "S"; "N"; "L"; "P"; "r"; "b"; "g"; "s"; "n"; "l"; "p"]%char.

(** [d.get(k, k)] *)
Definition get_or_self (d : gmap string string) (k : string) : string :=
  default k (d !! k).

(** ** Coordinate transform *)

Definition usi_to_uci_square (square : string) : result string :=
  c0 ← Py.getitem square 0;
  let col := 8 - (Py.ord c0 - Py.ord "1") in
  c1 ← Py.getitem square 1;
  let row := 8 - (Py.ord c1 - Py.ord "a") in
  file ← Py.chr (Py.ord "a" + col);
  rank ← Py.chr (Py.ord "1" + row);
  mret (String file (String rank "")).

Definition uci_to_usi_square (square : string) : result string :=
  c0 ← Py.getitem square 0;
  let col := 8 - (Py.ord c0 - Py.ord "a") in
  c1 ← Py.getitem square 1;
  let row := 8 - (Py.ord c1 - Py.ord "1") in
  file ← Py.chr (Py.ord "1" + col);
  rank ← Py.chr (Py.ord "a" + row);
  mret (String file (String rank "")).

(** ** Move transform *)

(** The body of the [try] block.  [move] is reassigned only by the last
    statement of either branch, so when the block raises, the handler still
    holds the token the function was given. *)
Definition usi_to_uci_move_try (move : string) : result string :=
  let sq_from := Py.slice 0 2 move in
  let sq_to := Py.slice 2 4 move in
  piece ← Py.getitem move 0;
  promote ← Py.getitem move 1;
  if decide (promote = "*"%char) then
    let out := String piece "" in
    let out := out +:+ "@" in
    to ← usi_to_uci_square sq_to;
    let out := out +:+ to in
    let out := out +:+ Py.slice_from 4 move in
    mret out
  else
    from ← usi_to_uci_square sq_from;
    let out := from in
    to ← usi_to_uci_square sq_to;
    let out := out +:+ to in
    let out := out +:+ Py.slice_from 4 move in
    mret out.

Definition usi_to_uci_move (move : string) : result string :=
  if decide (move = "0000") then mret move
  else try_except (usi_to_uci_move_try move) (λ _, mret move).

Definition uci_to_usi_move_try (move : string) : result string :=
  let sq_from := Py.slice 0 2 move in
  let sq_to := Py.slice 2 4 move in
  piece ← Py.getitem move 0;
  promote ← Py.getitem move 1;
  if decide (promote = "@"%char) then
    let out := String piece "" in
    let out := out +:+ "*" in
    to ← uci_to_usi_square sq_to;
    let out := out +:+ to in
    let out := out +:+ Py.slice_from 4 move in
    mret out
  else
    from ← uci_to_usi_square sq_from;
    let out := from in
    to ← uci_to_usi_square sq_to;
    let out := out +:+ to in
    let out := out +:+ Py.slice_from 4 move in
    mret out.

Definition uci_to_usi_move (move : string) : result string :=
  if decide (move = "0000") then mret move
  else try_except (uci_to_usi_move_try move) (λ _, mret move).

(** ** Engine-to-controller handlers *)

(** [base_cmd_replacer(new_cmd)]: [cmd[0] = new_cmd]. *)
Definition base_cmd_replacer (new_cmd : string) (cmd : list string) : result (list string) :=
  match cmd with
  | [] => Raise IndexError
  | _ :: _ => mret (<[0%nat := new_cmd]> cmd)
  end.

Definition usi_to_uci_bestmove (cmd : list string) : result (list string) :=
  if decide (length cmd < 2)%nat then mret cmd
  else
    m ← Py.index cmd 1;
    m' ← usi_to_uci_move m;
    mret (<[1%nat := m']> cmd).

(** The loop of [usi_to_uci_info] over the tokens from index [i] on, with
    the two flags as they stand when the loop reaches them.  [convert_mate]
    only guards a [log] call. *)
Fixpoint usi_to_uci_info_loop (convert_move convert_mate : bool) (terms : list string)
    : result (list string) :=
  match terms with
  | [] => mret []
  | term :: rest =>
      let keyword := bool_decide (term ∈ USI_INFO_KEYWORDS) in
      let convert_move := if keyword then false else convert_move in
      let convert_mate := if keyword then false else convert_mate in
      term' ← (if convert_move then usi_to_uci_move term else mret term);
      if decide (term = "mate") then
        rest' ← usi_to_uci_info_loop convert_move true rest;
        mret (term' :: rest')
      else if decide (term ∈ USI_INFO_MOVE_KEYWORDS) then
        rest' ← usi_to_uci_info_loop true convert_mate rest;
        mret (term' :: rest')
      else if decide (term = "string") then
        mret (term' :: rest)
      else
        rest' ← usi_to_uci_info_loop convert_move convert_mate rest;
        mret (term' :: rest')
  end.

Definition usi_to_uci_info (cmd : list string) : result (list string) :=
  usi_to_uci_info_loop false false cmd.

Definition usi_to_uci_option (cmd : list string) : result (list string) :=
  if decide ((length cmd < 3)%nat ∨ cmd !! 1%nat ≠ Some "name") then mret cmd
  else
    name ← Py.index cmd 2;
    let cmd := <[2%nat := get_or_self USI_TO_UCI_OPTIONS name]> cmd in
    if decide ((5 ≤ length cmd)%nat ∧ cmd !! 3%nat = Some "type" ∧ cmd !! 4%nat = Some "filename")
    then mret (<[4%nat := "string"]> cmd)
    else mret cmd.

(** ** Controller-to-engine handlers *)

(** The loop of [uci_to_usi_setoption] over [cmd[2:]]. *)
Fixpoint setoption_loop (name_mode : bool) (name after : list string) (terms : list string)
    : list string * list string :=
  match terms with
  | [] => (name, after)
  | term :: rest =>
      let name_mode := if decide (term = "value") then false else name_mode in
      if name_mode then setoption_loop name_mode (name ++ [term]) after rest
      else setoption_loop name_mode name (after ++ [term]) rest
  end.

Definition uci_to_usi_setoption (cmd : list string) : result (list string) :=
  if decide ((length cmd < 3)%nat ∨ cmd !! 1%nat ≠ Some "name") then mret cmd
  else
    let '(name, after) := setoption_loop true [] [] (drop 2 cmd) in
    let name := Py.join "_" name in
    let name := get_or_self UCI_TO_USI_OPTIONS name in
    mret (take 2 cmd ++ [name] ++ after).

(** ** Position transform *)

(** The first loop of the hand conversion: [hand_count[piece] += 1] for
    every character of the bracket contents, on a [defaultdict(int)]. *)
Definition hand_count_step (hand_count : gmap ascii nat) (piece : ascii) : gmap ascii nat :=
  <[piece := S (default 0%nat (hand_count !! piece))]> hand_count.

Definition hand_count_of (pieces : string) : gmap ascii nat :=
  foldl hand_count_step ∅ (String.list_ascii_of_string pieces).

(** The second loop: the pieces of [HAND_ORDER] in turn, the letter alone
    for a count of 1 and the count before the letter above 1.  (Reading a
    missing key of the [defaultdict] stores a 0 under it; nothing reads the
    dictionary afterwards.) *)
Definition hand_str_step (hand_count : gmap ascii nat) (hand_str : string) (piece : ascii)
    : string :=
  let n := default 0%nat (hand_count !! piece) in
  if decide (n = 1%nat) then hand_str +:+ String piece ""
  else if decide (1 < n)%nat then hand_str +:+ (Py.str (Z.of_nat n) +:+ String piece "")
  else hand_str.

Definition hand_str_of (hand_count : gmap ascii nat) : string :=
  foldl (hand_str_step hand_count) "" HAND_ORDER.

(** The four locals [fen_to_sfen] joins in its last line. *)
Record sfen := Sfen {
  sfen_board : string;
  sfen_turn : string;
  sfen_hand : string;
  sfen_move_num : string
}.

(** The [try] block of the turn number.  [move_num] is a field of the
    position (a string) until [int] has read it; [int] is the one call of
    the block that raises, and the handler ([except: pass]) leaves
    [move_num] as the last field assigned. *)
Definition move_num_of (cmd : list string) (turn : string) (move_num : string) : string :=
  let move_num :=
    match cmd !! 3%nat with
    | Some f => if Py.isdigit f then f else move_num
    | None => move_num
    end in
  let move_num :=
    match cmd !! 5%nat with
    | Some f => if Py.isdigit f then f else move_num
    | None => move_num
    end in
  match Py.int move_num with
  | Ok n =>
      let n := n * 2 - 1 in
      let n := if decide (turn = "w") then n + 1 else n in
      Py.str n
  | Raise _ => move_num
  end.

(** The block that separates the hand from the board: with a bracket in
    the board field, the field without its closing brackets is split at the
    opening ones; the first part is the board and the second the pieces in
    hand, one character per piece. *)
Definition separate_hand (board hand : string) : result (string * string) :=
  if Py.contains "[" board then
    let board := Py.split "[" (Py.remove "]" board) in
    pieces ← Py.index board 1;
    let hand_str := hand_str_of (hand_count_of pieces) in
    let hand := if decide (String.length hand_str ≠ 0%nat) then hand_str else hand in
    board ← Py.index board 0;
    mret (board, hand)
  else mret (board, hand).

(** The block that swaps the colours. *)
Definition swap_colors (cmd : list string) (turn : string) : string :=
  match cmd !! 1%nat with
  | Some t => if decide (t = "w") then "b" else if decide (t = "b") then "w" else t
  | None => turn
  end.

Definition fen_to_sfen_locals (fen : string) : result sfen :=
  let cmd := Py.split " " fen in
  board ← Py.index cmd 0;
  let hand := "-" in
  let turn := "" in
  let move_num := "1" in
  '(board, hand) ← separate_hand board hand;
  let turn := swap_colors cmd turn in
  let move_num := move_num_of cmd turn move_num in
  mret (Sfen board turn hand move_num).

Definition fen_to_sfen (fen : string) : result string :=
  p ← fen_to_sfen_locals fen;
  mret (Py.join " " [sfen_board p; sfen_turn p; sfen_hand p; sfen_move_num p]).

(** The loop of [uci_to_usi_position] over [cmd[1:]]; [out] and [fen] are
    the two lists it appends to. *)
Fixpoint position_loop (fen_mode move_mode : bool) (out fen : list string) (terms : list string)
    : result (list string * list string) :=
  match terms with
  | [] => mret (out, fen)
  | term :: rest =>
      if decide (term = "fen") then
        position_loop true false (out ++ ["sfen"]) fen rest
      else if decide (term = "moves") then
        '(out, fen) ←
          (if decide (0 < length fen)%nat then
             s ← fen_to_sfen (Py.join " " fen);
             mret (out ++ [s], [])
           else mret (out, fen));
        position_loop false true (out ++ ["moves"]) fen rest
      else if fen_mode then
        position_loop fen_mode move_mode out (fen ++ [term]) rest
      else if move_mode then
        m ← uci_to_usi_move term;
        position_loop fen_mode move_mode (out ++ [m]) fen rest
      else
        position_loop fen_mode move_mode (out ++ [term]) fen rest
  end.

Definition uci_to_usi_position (cmd : list string) : result (list string) :=
  if decide (length cmd < 3)%nat then mret cmd
  else
    '(out, fen) ← position_loop false false ["position"] [] (drop 1 cmd);
    if decide (0 < length fen)%nat then
      s ← fen_to_sfen (Py.join " " fen);
      mret (out ++ [s])
    else mret out.

(** ** Command dispatch *)

Abbreviation handler := (list string → result (list string)).

Definition UCI_TO_USI : gmap string handler :=
  list_to_map
    [("uci", base_cmd_replacer "usi");
     ("ucinewgame", base_cmd_replacer "usinewgame");
     ("setoption", uci_to_usi_setoption);
     ("position", uci_to_usi_position)].

Definition USI_TO_UCI : gmap string handler :=
  list_to_map
    [("usiok", base_cmd_replacer "uciok");
     ("bestmove", usi_to_uci_bestmove);
     ("info", usi_to_uci_info);
     ("option", usi_to_uci_option)].

Definition usi_to_uci (cmd : list string) : result (list string) :=
  verb ← Py.index cmd 0;
  match USI_TO_UCI !! verb with
  | Some f => f cmd
  | None => mret cmd
  end.

Definition uci_to_usi (cmd : list string) : result (list string) :=
  verb ← Py.index cmd 0;
  match UCI_TO_USI !! verb with
  | Some f => f cmd
  | None => mret cmd
  end.

(** ** The line pumps *)

Definition newline : string := String "010"%char "".

(** What the loop of [process_lines] does to a line it has read, before it
    writes: the engine-to-controller translation of one line. *)
Definition process_lines_line (line : string) : result string :=
  let words := Py.split " " (Py.rstrip line) in
  cmd ← usi_to_uci words;
  let out := Py.join " " cmd +:+ newline in
  mret out.

(** The same for the loop of [main_cli], controller to engine. *)
Definition main_cli_line (line : string) : result string :=
  let words := Py.split " " (Py.rstrip line) in
  cmd ← uci_to_usi words;
  let out := Py.join " " cmd +:+ newline in
  mret out.

(** ** The vocabulary of the statements *)

(** A square of the USI convention: a file digit 1..9, then a rank letter
    a..i.  A square of the UCI convention: a file letter a..i, then a rank
    digit 1..9. *)
Definition is_usi_square (sq : string) : bool :=
  match sq with
  | String f (String r EmptyString) =>
      bool_decide (Py.ord "1" ≤ Py.ord f ≤ Py.ord "9")
      && bool_decide (Py.ord "a" ≤ Py.ord r ≤ Py.ord "i")
  | _ => false
  end.

Definition is_uci_square (sq : string) : bool :=
  match sq with
  | String f (String r EmptyString) =>
      bool_decide (Py.ord "a" ≤ Py.ord f ≤ Py.ord "i")
      && bool_decide (Py.ord "1" ≤ Py.ord r ≤ Py.ord "9")
  | _ => false
  end.

(** The number of times [c] stands in [pieces]. *)
Definition occurrences (c : ascii) (pieces : string) : nat :=
  length (filter (λ d, d = c) (String.list_ascii_of_string pieces)).

(** [pieces] without the characters that are no piece letter. *)
Definition hand_letters (pieces : string) : string :=
  String.string_of_list_ascii
    (filter (λ d, d ∈ HAND_ORDER) (String.list_ascii_of_string pieces)).

(** Case analysis on the markers and squares of a move that is too short. *)
Ltac raise_cases :=
  repeat match goal with
  | |- context [decide ?P] => destruct (decide P)
  | |- context [usi_to_uci_square (String ?a (String ?b ?s))] =>
      destruct (usi_to_uci_square (String a (String b s)))
  | |- context [uci_to_usi_square (String ?a (String ?b ?s))] =>
      destruct (uci_to_usi_square (String a (String b s)))
  | |- ∃ e, Raise _ = Raise e => by eexists
  | _ => progress cbn [mbind result_bind mret result_ret]
  end.

(** * Properties *)

(** ** The embedding on sample inputs *)

Example split_empty : Py.split " " "" = [""].
Proof. reflexivity. Qed.

Example split_gaps : Py.split " " "a  b " = ["a"; ""; "b"; ""].
Proof. reflexivity. Qed.

Example join_split : Py.join " " ["a"; ""; "b"] = "a  b".
Proof. reflexivity. Qed.

Example str_values : Py.str 0 = "0" ∧ Py.str 6 = "6" ∧ Py.str (-1) = "-1" ∧ Py.str 120 = "120".
Proof. repeat split; reflexivity. Qed.

Example int_values :
  Py.int "007" = Ok 7 ∧ Py.int "12" = Ok 12 ∧ Py.int "" = Raise ValueError
  ∧ Py.isdigit (String "178"%char "") = true
  ∧ Py.int (String "178"%char "") = Raise ValueError.
Proof. repeat split; reflexivity. Qed.

Example square_5e : usi_to_uci_square "5e" = Ok "e5".
Proof. reflexivity. Qed.

Example move_7g7f : usi_to_uci_move "7g7f+" = Ok "c3c4+".
Proof. reflexivity. Qed.

Example move_short : usi_to_uci_move "7g7" = Ok "7g7".
Proof. reflexivity. Qed.

Example bestmove_ponder :
  usi_to_uci_bestmove ["bestmove"; "7g7f"; "ponder"; "3c3d"]
  = Ok ["bestmove"; "c3c4"; "ponder"; "3c3d"].
Proof. reflexivity. Qed.

Example info_pv :
  usi_to_uci_info ["info"; "depth"; "3"; "pv"; "7g7f"; "3c3d"; "string"; "pv"; "7g7f"]
  = Ok ["info"; "depth"; "3"; "pv"; "c3c4"; "g7g6"; "string"; "pv"; "7g7f"].
Proof. vm_compute. reflexivity. Qed.

Example option_filename :
  usi_to_uci_option ["option"; "name"; "USI_Hash"; "type"; "filename"]
  = Ok ["option"; "name"; "Hash"; "type"; "string"].
Proof. vm_compute. reflexivity. Qed.

Example setoption_spaces :
  uci_to_usi_setoption ["setoption"; "name"; "Skill"; "Level"; "value"; "3"]
  = Ok ["setoption"; "name"; "Skill_Level"; "value"; "3"].
Proof. vm_compute. reflexivity. Qed.

Example fen_hand :
  fen_to_sfen "lnsgkgsnl/9/9[RRpPppp] b - - 0 3" = Ok "lnsgkgsnl/9/9 w 2RP4p 6".
Proof. vm_compute. reflexivity. Qed.

Example fen_short : fen_to_sfen "9/9" = Ok "9/9  - 1".
Proof. vm_compute. reflexivity. Qed.

Example fen_superscript :
  fen_to_sfen ("9/9 w - - 0 " +:+ String "178"%char "")
  = Ok ("9/9 b - " +:+ String "178"%char "").
Proof. vm_compute. reflexivity. Qed.

Example position_startpos :
  uci_to_usi ["position"; "startpos"; "moves"; "c3c4"; "P@e5"]
  = Ok ["position"; "startpos"; "moves"; "7g7f"; "P*5e"].
Proof. vm_compute. reflexivity. Qed.

Example uci_verb : uci_to_usi ["uci"] = Ok ["usi"] ∧ usi_to_uci [] = Raise IndexError.
Proof. split; vm_compute; reflexivity. Qed.

(** ** Code points *)

Lemma ord_range (c : ascii) : 0 ≤ Py.ord c < 256.
Proof.
  unfold Py.ord. pose proof (N_ascii_bounded c). lia.
Qed.

Lemma chr_ord (c : ascii) : Py.chr (Py.ord c) = Ok c.
Proof.
  unfold Py.chr. pose proof (ord_range c).
  destruct (decide _); [|lia].
  unfold Py.ord. by rewrite N2Z.id, ascii_N_embedding.
Qed.

Lemma ord_chr (i : Z) (c : ascii) : Py.chr i = Ok c → Py.ord c = i.
Proof.
  unfold Py.chr, Py.ord. destruct (decide _) as [Hi|]; [|done].
  intros [= <-]. rewrite N_ascii_embedding; lia.
Qed.

Lemma chr_Ok (i : Z) : 0 ≤ i < 256 → ∃ c, Py.chr i = Ok c.
Proof. intros Hi. unfold Py.chr. destruct (decide _); [eauto|lia]. Qed.

(** Either transform sends each of the two characters [c] of a square to
    [chr(154 - ord(c))]: the offsets of the two alphabets add up to the
    same constant in both directions. *)
Lemma usi_to_uci_square_chars (c0 c1 : ascii) (rest : string) :
  usi_to_uci_square (String c0 (String c1 rest))
  = (file ← Py.chr (154 - Py.ord c0); rank ← Py.chr (154 - Py.ord c1);
     mret (String file (String rank ""))).
Proof.
  unfold usi_to_uci_square. cbn [Py.getitem String.get mbind result_bind].
  change (Py.ord "a") with 97. change (Py.ord "1") with 49.
  by replace (97 + (8 - (Py.ord c0 - 49))) with (154 - Py.ord c0) by lia;
     replace (49 + (8 - (Py.ord c1 - 97))) with (154 - Py.ord c1) by lia.
Qed.

Lemma uci_to_usi_square_chars (c0 c1 : ascii) (rest : string) :
  uci_to_usi_square (String c0 (String c1 rest))
  = (file ← Py.chr (154 - Py.ord c0); rank ← Py.chr (154 - Py.ord c1);
     mret (String file (String rank ""))).
Proof.
  unfold uci_to_usi_square. cbn [Py.getitem String.get mbind result_bind].
  change (Py.ord "a") with 97. change (Py.ord "1") with 49.
  by replace (49 + (8 - (Py.ord c0 - 97))) with (154 - Py.ord c0) by lia;
     replace (97 + (8 - (Py.ord c1 - 49))) with (154 - Py.ord c1) by lia.
Qed.

Lemma mirror_chr (c : ascii) :
  Py.ord c ≤ 154 →
  ∃ d, Py.chr (154 - Py.ord c) = Ok d ∧ Py.chr (154 - Py.ord d) = Ok c.
Proof.
  intros Hc. pose proof (ord_range c).
  destruct (chr_Ok (154 - Py.ord c)) as [d Hd]; [lia|].
  exists d. split; [done|]. apply ord_chr in Hd. rewrite Hd.
  replace (154 - (154 - Py.ord c)) with (Py.ord c) by lia. apply chr_ord.
Qed.

Lemma square_two_chars (sq : string) :
  is_usi_square sq = true ∨ is_uci_square sq = true →
  ∃ c0 c1, sq = String c0 (String c1 "") ∧ Py.ord c0 ≤ 154 ∧ Py.ord c1 ≤ 154.
Proof.
  change (Py.ord "1") with 49. change (Py.ord "9") with 57.
  destruct sq as [|c0 [|c1 [|]]]; cbn; try (intros [|]; done).
  change (Py.ord "1") with 49. change (Py.ord "9") with 57.
  change (Py.ord "a") with 97. change (Py.ord "i") with 105.
  intros [H|H]; apply andb_true_iff in H as [H0 H1];
    apply bool_decide_eq_true in H0, H1; exists c0, c1; repeat split; lia.
Qed.

(** The image of a square of one convention is a square of the other. *)
Lemma usi_to_uci_square_valid (sq : string) :
  is_usi_square sq = true →
  ∃ sq', usi_to_uci_square sq = Ok sq' ∧ is_uci_square sq' = true.
Proof.
  destruct sq as [|c0 [|c1 [|]]]; cbn [is_usi_square]; try done.
  change (Py.ord "1") with 49. change (Py.ord "9") with 57.
  change (Py.ord "a") with 97. change (Py.ord "i") with 105.
  intros H. apply andb_true_iff in H as [H0 H1]. apply bool_decide_eq_true in H0, H1.
  rewrite usi_to_uci_square_chars.
  destruct (chr_Ok (154 - Py.ord c0)) as [d0 Hd0]; [lia|].
  destruct (chr_Ok (154 - Py.ord c1)) as [d1 Hd1]; [lia|].
  rewrite Hd0, Hd1. eexists; split; [reflexivity|].
  apply ord_chr in Hd0, Hd1. cbn [is_uci_square].
  change (Py.ord "1") with 49. change (Py.ord "9") with 57.
  change (Py.ord "a") with 97. change (Py.ord "i") with 105.
  apply andb_true_iff; split; apply bool_decide_eq_true; lia.
Qed.

Lemma uci_to_usi_square_valid (sq : string) :
  is_uci_square sq = true →
  ∃ sq', uci_to_usi_square sq = Ok sq' ∧ is_usi_square sq' = true.
Proof.
  destruct sq as [|c0 [|c1 [|]]]; cbn [is_uci_square]; try done.
  change (Py.ord "1") with 49. change (Py.ord "9") with 57.
  change (Py.ord "a") with 97. change (Py.ord "i") with 105.
  intros H. apply andb_true_iff in H as [H0 H1]. apply bool_decide_eq_true in H0, H1.
  rewrite uci_to_usi_square_chars.
  destruct (chr_Ok (154 - Py.ord c0)) as [d0 Hd0]; [lia|].
  destruct (chr_Ok (154 - Py.ord c1)) as [d1 Hd1]; [lia|].
  rewrite Hd0, Hd1. eexists; split; [reflexivity|].
  apply ord_chr in Hd0, Hd1. cbn [is_usi_square].
  change (Py.ord "1") with 49. change (Py.ord "9") with 57.
  change (Py.ord "a") with 97. change (Py.ord "i") with 105.
  apply andb_true_iff; split; apply bool_decide_eq_true; lia.
Qed.

(** Two characters up to code point 154 come back from either transform
    followed by the other. *)
Lemma square_mirror_twice (c0 c1 : ascii) :
  Py.ord c0 ≤ 154 → Py.ord c1 ≤ 154 →
  usi_to_uci_square (String c0 (String c1 "")) ≫= uci_to_usi_square
  = Ok (String c0 (String c1 ""))
  ∧ uci_to_usi_square (String c0 (String c1 "")) ≫= usi_to_uci_square
    = Ok (String c0 (String c1 "")).
Proof.
  intros H0 H1.
  destruct (mirror_chr c0 H0) as (d0 & Hd0 & Hc0).
  destruct (mirror_chr c1 H1) as (d1 & Hd1 & Hc1).
  rewrite usi_to_uci_square_chars, uci_to_usi_square_chars, Hd0, Hd1.
  cbn [mbind result_bind mret result_ret].
  by rewrite usi_to_uci_square_chars, uci_to_usi_square_chars, Hc0, Hc1.
Qed.

(** C4. The two square transforms are inverse to each other: on every
    square of the 9x9 board, written in either convention, applying one
    transform and then the other gives the square back, in either order. *)
Theorem square_transforms_inverse (sq : string) :
  is_usi_square sq = true ∨ is_uci_square sq = true →
  usi_to_uci_square sq ≫= uci_to_usi_square = Ok sq
  ∧ uci_to_usi_square sq ≫= usi_to_uci_square = Ok sq.
Proof.
  intros H. destruct (square_two_chars sq H) as (c0 & c1 & -> & H0 & H1).
  by apply square_mirror_twice.
Qed.

Lemma square_transforms_inverse_witness :
  (usi_to_uci_square "7g" ≫= uci_to_usi_square = Ok "7g"
   ∧ uci_to_usi_square "7g" ≫= usi_to_uci_square = Ok "7g")
  ∧ (usi_to_uci_square "e2" ≫= uci_to_usi_square = Ok "e2"
     ∧ uci_to_usi_square "e2" ≫= usi_to_uci_square = Ok "e2").
Proof.
  split.
  - apply (square_transforms_inverse "7g"). left. reflexivity.
  - apply (square_transforms_inverse "e2"). right. reflexivity.
Defined.

(** ** Move transform *)

Lemma usi_to_uci_move_total (move : string) : ∃ out, usi_to_uci_move move = Ok out.
Proof.
  unfold usi_to_uci_move. destruct (decide _); [by eexists|].
  destruct (usi_to_uci_move_try move); by eexists.
Qed.

Lemma uci_to_usi_move_total (move : string) : ∃ out, uci_to_usi_move move = Ok out.
Proof.
  unfold uci_to_usi_move. destruct (decide _); [by eexists|].
  destruct (uci_to_usi_move_try move); by eexists.
Qed.

Lemma usi_to_uci_move_fallback (move : string) (e : exn) :
  usi_to_uci_move_try move = Raise e → usi_to_uci_move move = Ok move.
Proof.
  intros He. unfold usi_to_uci_move. destruct (decide _); [done|]. by rewrite He.
Qed.

Lemma uci_to_usi_move_fallback (move : string) (e : exn) :
  uci_to_usi_move_try move = Raise e → uci_to_usi_move move = Ok move.
Proof.
  intros He. unfold uci_to_usi_move. destruct (decide _); [done|]. by rewrite He.
Qed.

(** A square transform raises on a field of fewer than two characters. *)
Lemma usi_to_uci_square_short (sq : string) :
  (String.length sq < 2)%nat → usi_to_uci_square sq = Raise IndexError.
Proof. destruct sq as [|c0 [|c1 sq]]; cbn; [done|done|lia]. Qed.

Lemma uci_to_usi_square_short (sq : string) :
  (String.length sq < 2)%nat → uci_to_usi_square sq = Raise IndexError.
Proof. destruct sq as [|c0 [|c1 sq]]; cbn; [done|done|lia]. Qed.

(** A token of fewer than four characters has no room for its squares:
    the [try] block raises on it, whatever its characters are. *)
Lemma usi_to_uci_move_try_short (move : string) :
  (String.length move < 4)%nat → ∃ e, usi_to_uci_move_try move = Raise e.
Proof.
  destruct move as [|c0 [|c1 [|c2 [|c3 move]]]]; cbn [String.length]; intros Hlen;
    try lia; unfold usi_to_uci_move_try;
    cbn [Py.slice Py.take Py.drop Py.getitem String.get Nat.sub];
    try (by eexists); raise_cases;
    rewrite ?(usi_to_uci_square_short ""), ?(usi_to_uci_square_short (String c2 ""))
      by (cbn; lia);
    raise_cases.
Qed.

Lemma uci_to_usi_move_try_short (move : string) :
  (String.length move < 4)%nat → ∃ e, uci_to_usi_move_try move = Raise e.
Proof.
  destruct move as [|c0 [|c1 [|c2 [|c3 move]]]]; cbn [String.length]; intros Hlen;
    try lia; unfold uci_to_usi_move_try;
    cbn [Py.slice Py.take Py.drop Py.getitem String.get Nat.sub];
    try (by eexists); raise_cases;
    rewrite ?(uci_to_usi_square_short ""), ?(uci_to_usi_square_short (String c2 ""))
      by (cbn; lia);
    raise_cases.
Qed.

(** C6. The move transforms are total and fail-soft: on every token each
    of them returns a string and never raises; whenever the parse inside
    the [try] block raises, the token comes back unchanged; and the parse
    does raise on every token of fewer than four characters. *)
Theorem move_transform_fail_soft (move : string) :
  (∃ out, usi_to_uci_move move = Ok out)
  ∧ (∃ out, uci_to_usi_move move = Ok out)
  ∧ (∀ e, usi_to_uci_move_try move = Raise e → usi_to_uci_move move = Ok move)
  ∧ (∀ e, uci_to_usi_move_try move = Raise e → uci_to_usi_move move = Ok move)
  ∧ ((String.length move < 4)%nat →
     (∃ e, usi_to_uci_move_try move = Raise e)
     ∧ (∃ e, uci_to_usi_move_try move = Raise e)
     ∧ usi_to_uci_move move = Ok move
     ∧ uci_to_usi_move move = Ok move).
Proof.
  split; [apply usi_to_uci_move_total|].
  split; [apply uci_to_usi_move_total|].
  split; [apply usi_to_uci_move_fallback|].
  split; [apply uci_to_usi_move_fallback|].
  intros Hlen.
  destruct (usi_to_uci_move_try_short move Hlen) as [e1 H1].
  destruct (uci_to_usi_move_try_short move Hlen) as [e2 H2].
  eauto 8 using usi_to_uci_move_fallback, uci_to_usi_move_fallback.
Qed.

Lemma move_transform_fail_soft_witness :
  usi_to_uci_move "7g7" = Ok "7g7" ∧ uci_to_usi_move "e2e" = Ok "e2e".
Proof.
  split.
  - destruct (move_transform_fail_soft "7g7") as (_ & _ & _ & _ & H).
    apply H. cbn. lia.
  - destruct (move_transform_fail_soft "e2e") as (_ & _ & _ & _ & H).
    apply H. cbn. lia.
Defined.

(** A drop in the USI convention, [piece * square suffix], and the token
    the engine-to-controller transform makes of it, translate into each
    other: the piece and the suffix are kept, the marker is swapped and the
    square goes through the coordinate transform. *)
Lemma drop_round_trip (piece : ascii) (sq suffix : string) :
  is_usi_square sq = true →
  ∃ sq', usi_to_uci_square sq = Ok sq'
    ∧ usi_to_uci_move (String piece (String "*" (sq +:+ suffix)))
      = Ok (String piece (String "@" (sq' +:+ suffix)))
    ∧ uci_to_usi_move (String piece (String "@" (sq' +:+ suffix)))
      = Ok (String piece (String "*" (sq +:+ suffix))).
Proof.
  intros Hsq.
  destruct (usi_to_uci_square_valid sq Hsq) as (sq' & Hfwd & Hsq').
  destruct (square_two_chars sq (or_introl Hsq)) as (c0 & c1 & -> & H0 & H1).
  destruct (square_mirror_twice c0 c1 H0 H1) as [Hback _].
  rewrite Hfwd in Hback. cbn [mbind result_bind] in Hback.
  exists sq'. split; [done|].
  destruct sq' as [|d0 [|d1 [|]]]; try done.
  split.
  - unfold usi_to_uci_move. destruct (decide _) as [Heq|_]; [by inversion Heq|].
    unfold usi_to_uci_move_try.
    change (String c0 (String c1 "") +:+ suffix) with (String c0 (String c1 suffix)).
    cbn [Py.slice Py.slice_from Py.take Py.drop Py.getitem String.get Nat.sub
         mbind result_bind].
    destruct (decide _); [|done].
    by rewrite Hfwd.
  - unfold uci_to_usi_move. destruct (decide _) as [Heq|_]; [by inversion Heq|].
    unfold uci_to_usi_move_try.
    change (String d0 (String d1 "") +:+ suffix) with (String d0 (String d1 suffix)).
    cbn [Py.slice Py.slice_from Py.take Py.drop Py.getitem String.get Nat.sub
         mbind result_bind].
    destruct (decide _); [|done].
    by rewrite Hback.
Qed.

(** C7. The drop [P*5e] translates to [P@e5]: the piece letter is kept,
    the marker [*] becomes [@], and the square [5e] becomes [e5], its
    coordinate transform; [P@e5] translates back to [P*5e]. *)
Theorem drop_move_P5e_round_trip :
  usi_to_uci_square "5e" = Ok "e5"
  ∧ usi_to_uci_move "P*5e" = Ok "P@e5"
  ∧ uci_to_usi_move "P@e5" = Ok "P*5e".
Proof.
  destruct (drop_round_trip "P" "5e" "") as (sq' & Hsq & Hfwd & Hback); [done|].
  assert (sq' = "e5") as -> by (cbv in Hsq; congruence).
  done.
Qed.

(** ** Command dispatch *)

Lemma USI_TO_UCI_verbs :
  dom USI_TO_UCI = list_to_set ["usiok"; "bestmove"; "info"; "option"].
Proof. unfold USI_TO_UCI. rewrite dom_list_to_map_L. reflexivity. Qed.

Lemma UCI_TO_USI_verbs :
  dom UCI_TO_USI = list_to_set ["uci"; "ucinewgame"; "setoption"; "position"].
Proof. unfold UCI_TO_USI. rewrite dom_list_to_map_L. reflexivity. Qed.

(** C8. A command whose verb is in no entry of a direction's dispatch
    table passes through that direction unchanged, token for token. *)
Theorem unknown_verb_pass_through (verb : string) (rest : list string) :
  (verb ∉ dom USI_TO_UCI → usi_to_uci (verb :: rest) = Ok (verb :: rest))
  ∧ (verb ∉ dom UCI_TO_USI → uci_to_usi (verb :: rest) = Ok (verb :: rest)).
Proof.
  split; intros Hverb; apply not_elem_of_dom in Hverb.
  - unfold usi_to_uci. change (Py.index (verb :: rest) 0) with (Ok verb).
    cbn [mbind result_bind]. by rewrite Hverb.
  - unfold uci_to_usi. change (Py.index (verb :: rest) 0) with (Ok verb).
    cbn [mbind result_bind]. by rewrite Hverb.
Qed.

Lemma unknown_verb_pass_through_witness :
  usi_to_uci ["anything"; "foo"; "bar"] = Ok ["anything"; "foo"; "bar"]
  ∧ uci_to_usi ["anything"; "foo"; "bar"] = Ok ["anything"; "foo"; "bar"].
Proof.
  destruct (unknown_verb_pass_through "anything" ["foo"; "bar"]) as [H1 H2].
  split.
  - apply H1. apply not_elem_of_dom. vm_compute. reflexivity.
  - apply H2. apply not_elem_of_dom. vm_compute. reflexivity.
Defined.

(** C9. [usi_to_uci_bestmove] never raises and keeps the length of the
    command; every token but the one at index 1 is the token it was given
    (a [ponder] keyword and the move after it included); the token at
    index 1, when there is one, is replaced by its move transform; a
    command of fewer than two tokens is returned as it is. *)
Theorem bestmove_frame (cmd : list string) :
  ∃ out, usi_to_uci_bestmove cmd = Ok out
    ∧ length out = length cmd
    ∧ (∀ i, i ≠ 1%nat → out !! i = cmd !! i)
    ∧ (∀ m, cmd !! 1%nat = Some m →
        ∃ m', usi_to_uci_move m = Ok m' ∧ out !! 1%nat = Some m')
    ∧ ((length cmd < 2)%nat → out = cmd).
Proof.
  unfold usi_to_uci_bestmove. destruct (decide _) as [Hlen|Hlen].
  - exists cmd. repeat split; try done.
    intros m Hm. apply lookup_lt_Some in Hm. lia.
  - destruct (lookup_lt_is_Some_2 cmd 1) as [m Hm]; [lia|].
    destruct (usi_to_uci_move_total m) as [m' Hm'].
    unfold Py.index. rewrite Hm. cbn [mbind result_bind]. rewrite Hm'.
    cbn [mbind result_bind mret result_ret].
    exists (<[1%nat := m']> cmd). split; [done|].
    split; [apply length_insert|].
    split; [intros i Hi; by apply list_lookup_insert_ne|].
    split; [|lia].
    intros m0 [= <-]. exists m'.
    split; [done|]. apply list_lookup_insert_eq. lia.
Qed.

Lemma bestmove_frame_witness :
  usi_to_uci_bestmove ["bestmove"] = Ok ["bestmove"]
  ∧ ∃ out, usi_to_uci_bestmove ["bestmove"; "7g7f"; "ponder"; "3c3d"] = Ok out
      ∧ out !! 2%nat = Some "ponder" ∧ out !! 3%nat = Some "3c3d".
Proof.
  split.
  - destruct (bestmove_frame ["bestmove"]) as (out & -> & _ & _ & _ & H).
    rewrite H; [reflexivity|]. cbn. lia.
  - destruct (bestmove_frame ["bestmove"; "7g7f"; "ponder"; "3c3d"])
      as (out & Hout & _ & H & _).
    exists out. split; [exact Hout|]. split; apply H; lia.
Defined.

(** ** Hand inventory *)

Lemma hand_count_step_lookup (m : gmap ascii nat) (d c : ascii) :
  hand_count_step m d !! c
  = if decide (d = c) then Some (S (default 0%nat (m !! c))) else m !! c.
Proof.
  unfold hand_count_step. destruct (decide (d = c)) as [->|Hne].
  - by rewrite lookup_insert_eq.
  - by rewrite lookup_insert_ne.
Qed.

(** After the first loop the entry of [c] is its entry before the loop
    plus the number of times the loop met [c]. *)
Lemma hand_count_foldl_default (l : list ascii) (m : gmap ascii nat) (c : ascii) :
  default 0%nat (foldl hand_count_step m l !! c)
  = (default 0%nat (m !! c) + length (filter (λ d, d = c) l))%nat.
Proof.
  revert m. induction l as [|d l IH]; intros m; cbn [foldl].
  - rewrite filter_nil. cbn. lia.
  - rewrite IH, hand_count_step_lookup, filter_cons.
    destruct (decide (d = c)); cbn; lia.
Qed.

Lemma hand_count_foldl_is_Some (l : list ascii) (m : gmap ascii nat) (c : ascii) :
  c ∈ l → is_Some (foldl hand_count_step m l !! c).
Proof.
  revert m. induction l as [|d l IH]; intros m Hc; [by apply elem_of_nil in Hc|].
  cbn [foldl]. destruct (decide (c ∈ l)) as [Hl|Hl]; [by apply IH|].
  apply elem_of_cons in Hc as [->|]; [|done].
  assert (default 0%nat (foldl hand_count_step (hand_count_step m d) l !! d) ≠ 0%nat)
    as Hpos.
  { rewrite hand_count_foldl_default, hand_count_step_lookup, decide_True by done.
    cbn. lia. }
  destruct (foldl _ _ _ !! d); [by eexists|done].
Qed.

Lemma hand_count_of_default (pieces : string) (c : ascii) :
  default 0%nat (hand_count_of pieces !! c) = occurrences c pieces.
Proof.
  unfold hand_count_of, occurrences.
  by rewrite hand_count_foldl_default, lookup_empty.
Qed.

(** The second loop reads the dictionary at the letters of [HAND_ORDER]
    and nowhere else. *)
Lemma hand_str_of_ext (m1 m2 : gmap ascii nat) :
  (∀ c, c ∈ HAND_ORDER → default 0%nat (m1 !! c) = default 0%nat (m2 !! c)) →
  hand_str_of m1 = hand_str_of m2.
Proof.
  intros Hext. unfold hand_str_of. generalize "". revert Hext.
  generalize HAND_ORDER. intros order. induction order as [|c order IH];
    intros Hext acc; [done|].
  cbn [foldl]. rewrite IH.
  - f_equal. unfold hand_str_step. by rewrite (Hext c) by (left).
  - intros d Hd. apply Hext. by right.
Qed.

Lemma list_ascii_of_string_of_list (l : list ascii) :
  String.list_ascii_of_string (String.string_of_list_ascii l) = l.
Proof. induction l; cbn; by f_equal. Qed.

Lemma occurrences_hand_letters (pieces : string) (c : ascii) :
  c ∈ HAND_ORDER → occurrences c (hand_letters pieces) = occurrences c pieces.
Proof.
  intros Hc. unfold occurrences, hand_letters.
  rewrite list_ascii_of_string_of_list.
  induction (String.list_ascii_of_string pieces) as [|d l IH]; [done|].
  rewrite !filter_cons.
  destruct (decide (d = c)) as [->|Hne].
  - rewrite decide_True by done. rewrite filter_cons, decide_True by done.
    cbn. by rewrite IH.
  - destruct (decide (d ∈ HAND_ORDER)); [|done].
    by rewrite filter_cons, decide_False.
Qed.

(** C10. Every character of the bracket contents gets an entry in the
    dictionary of counts, a piece letter or not; the hand string is the one
    of the contents with every character outside the fourteen piece letters
    taken out; so the contents [2R] count a ['2'] and an ['R'] and are
    written as the one piece [R]. *)
Theorem hand_alphabet_filtering (pieces : string) :
  (∀ c, c ∈ String.list_ascii_of_string pieces →
     hand_count_of pieces !! c = Some (occurrences c pieces)
     ∧ (1 ≤ occurrences c pieces)%nat)
  ∧ hand_str_of (hand_count_of pieces) = hand_str_of (hand_count_of (hand_letters pieces))
  ∧ hand_count_of "2R" = {[ "2"%char := 1%nat; "R"%char := 1%nat ]}
  ∧ hand_str_of (hand_count_of "2R") = "R"
  ∧ fen_to_sfen "9/9[2R] w" = Ok "9/9 b R 1".
Proof.
  split; [|split; [|by vm_compute]].
  - intros c Hc.
    pose proof (hand_count_of_default pieces c) as Hn.
    destruct (hand_count_foldl_is_Some _ ∅ c Hc) as [n Hsome].
    fold (hand_count_of pieces) in Hsome. rewrite Hsome in Hn |- *. cbn in Hn.
    subst n. split; [done|].
    unfold occurrences. apply list_elem_of_split in Hc as (l1 & l2 & ->).
    rewrite filter_app, filter_cons, decide_True, length_app by done. cbn. lia.
  - apply hand_str_of_ext. intros c Hc.
    by rewrite !hand_count_of_default, occurrences_hand_letters.
Qed.

Lemma hand_alphabet_filtering_witness :
  hand_count_of "2R" !! "2"%char = Some 1%nat
  ∧ hand_str_of (hand_count_of "2R") = hand_str_of (hand_count_of "R").
Proof.
  destruct (hand_alphabet_filtering "2R") as (Hcount & Hstr & _).
  split.
  - destruct (Hcount "2"%char) as [H _]; [|exact H]. left.
  - exact Hstr.
Defined.

(** C1, as the code has it.  The fixed-order writer turns the counts
    {R:2, P:1} into [2RP].  The reader of the bracket contents counts one
    piece per character: the counts {R:2, P:1} are what it reads from the
    flat list [RRP], while from [2RP] it reads one ['2'], one ['R'] and one
    ['P'], which the writer turns into [RP]. *)
Theorem hand_inventory_flat_round_trip :
  hand_str_of {[ "R"%char := 2%nat; "P"%char := 1%nat ]} = "2RP"
  ∧ hand_count_of "RRP" = {[ "R"%char := 2%nat; "P"%char := 1%nat ]}
  ∧ hand_str_of (hand_count_of "RRP") = "2RP"
  ∧ hand_count_of "2RP" = {[ "2"%char := 1%nat; "R"%char := 1%nat; "P"%char := 1%nat ]}
  ∧ hand_str_of (hand_count_of "2RP") = "RP".
Proof. by vm_compute. Qed.

(** The reader does not give {R:2, P:1} back from [2RP]: it has one rook,
    not two, and a ['2']. *)
Lemma hand_inventory_2RP_not_decoded :
  hand_str_of {[ "R"%char := 2%nat; "P"%char := 1%nat ]} = "2RP"
  ∧ hand_count_of "2RP" !! "R"%char = Some 1%nat
  ∧ hand_count_of "2RP" !! "2"%char = Some 1%nat
  ∧ hand_count_of "2RP" ≠ {[ "R"%char := 2%nat; "P"%char := 1%nat ]}.
Proof.
  split; [by vm_compute|]. split; [by vm_compute|]. split; [by vm_compute|].
  intros Heq. apply (f_equal (λ m : gmap ascii nat, m !! "R"%char)) in Heq.
  vm_compute in Heq. discriminate Heq.
Qed.

(** ** Strings and fields *)

Lemma string_app_assoc (a b c : string) : (a +:+ b) +:+ c = a +:+ (b +:+ c).
Proof.
  induction a as [|x a IH]; [done|].
  change ((String x a +:+ b) +:+ c) with (String x ((a +:+ b) +:+ c)).
  by rewrite IH.
Qed.

Lemma contains_remove (c d : ascii) (s : string) :
  c ≠ d → Py.contains c (Py.remove d s) = Py.contains c s.
Proof.
  intros Hne. induction s as [|a s IH]; [done|]. cbn.
  destruct (decide (a = d)) as [->|]; cbn.
  - by rewrite decide_False by done.
  - by rewrite IH.
Qed.

Lemma split_contains (sep : ascii) (s : string) :
  Py.contains sep s = true → ∃ w0 w1 ws, Py.split sep s = w0 :: w1 :: ws.
Proof.
  unfold Py.split. induction s as [|a s IH]; cbn; [done|].
  destruct (Py.split_fields sep s) as [w ws].
  destruct (decide (a = sep)); [by eauto|].
  intros Hs. destruct (IH Hs) as (w0 & w1 & ws' & [= -> ->]). eauto.
Qed.


(** A field without separator, then a separator: the split takes the
    field off and goes on behind the separator. *)
Lemma split_field (sep : ascii) (w rest : string) :
  Py.contains sep w = false →
  Py.split sep (w +:+ String sep rest) = w :: Py.split sep rest.
Proof.
  unfold Py.split. induction w as [|a w IH].
  - intros _. change ("" +:+ String sep rest) with (String sep rest). cbn.
    destruct (Py.split_fields sep rest). by rewrite decide_True.
  - cbn [Py.contains]. destruct (decide (a = sep)); [done|]. intros Hw.
    specialize (IH Hw).
    change (String a w +:+ String sep rest) with (String a (w +:+ String sep rest)).
    cbn [Py.split_fields].
    destruct (Py.split_fields sep (w +:+ String sep rest)) as [w' ws'].
    destruct (Py.split_fields sep rest) as [r rs].
    rewrite decide_False by done. by injection IH as -> ->.
Qed.

Lemma split_cons (sep : ascii) (s : string) :
  ∃ w ws, Py.split sep s = w :: ws.
Proof. unfold Py.split. destruct (Py.split_fields sep s). eauto. Qed.

(** ** Position transform *)

Lemma separate_hand_total (board hand : string) :
  ∃ board' hand', separate_hand board hand = Ok (board', hand').
Proof.
  unfold separate_hand. destruct (Py.contains "[" board) eqn:Hb; [|by eauto].
  destruct (split_contains "[" (Py.remove "]" board)) as (w0 & w1 & ws & ->).
  { by rewrite contains_remove. }
  cbn. eauto.
Qed.

Lemma separate_hand_no_bracket (board hand : string) :
  Py.contains "[" board = false → separate_hand board hand = Ok (board, hand).
Proof. intros Hb. unfold separate_hand. by rewrite Hb. Qed.

(** [fen_to_sfen] raises on no position string; its turn and move-number
    fields are those of the two blocks, at the fields of the string. *)
Lemma fen_to_sfen_locals_total (fen : string) :
  let cmd := Py.split " " fen in
  ∃ board hand,
    fen_to_sfen_locals fen
    = Ok (Sfen board (swap_colors cmd "") hand (move_num_of cmd (swap_colors cmd "") "1")).
Proof.
  intros cmd. unfold fen_to_sfen_locals. fold cmd.
  destruct (split_cons " " fen) as (w & ws & Hcmd). fold cmd in Hcmd. rewrite Hcmd.
  cbn [Py.index lookup list_lookup mbind result_bind].
  destruct (separate_hand_total w "-") as (board & hand & ->).
  cbn. eauto.
Qed.


(** The side to move comes out as [w] exactly when it went in as [b]. *)
Lemma swap_colors_w (cmd : list string) :
  swap_colors cmd "" = "w" ↔ cmd !! 1%nat = Some "b".
Proof.
  unfold swap_colors. destruct (cmd !! 1%nat) as [t|]; [|done].
  destruct (decide (t = "w")) as [->|]; [done|].
  destruct (decide (t = "b")) as [->|]; [done|].
  split; [done|]. by intros [= ->].
Qed.






(** The turn-number block with no field that passes [isdigit] at index 3
    or 5: [move_num] is still the ['1'] it was initialised to when [int]
    reads it. *)
Lemma move_num_of_default (cmd : list string) (turn : string) :
  (∀ f, cmd !! 3%nat = Some f → Py.isdigit f = false) →
  (∀ f, cmd !! 5%nat = Some f → Py.isdigit f = false) →
  move_num_of cmd turn "1" = if decide (turn = "w") then "2" else "1".
Proof.
  intros H3 H5. unfold move_num_of.
  destruct (cmd !! 3%nat) as [f3|]; [rewrite (H3 f3 eq_refl)|];
    (destruct (cmd !! 5%nat) as [f5|]; [rewrite (H5 f5 eq_refl)|]);
    by destruct (decide _).
Qed.



(** C2, as the code has it.  On a position string with no field that
    passes [isdigit] at index 3 or 5, the full-move counter defaults to 1
    and the ply formula is applied to it all the same: the move number
    written is [1] unless the side to move of the string is [b], and [2]
    when it is. *)
Theorem move_number_default (fen : string) :
  (∀ f, Py.split " " fen !! 3%nat = Some f → Py.isdigit f = false) →
  (∀ f, Py.split " " fen !! 5%nat = Some f → Py.isdigit f = false) →
  ∃ p, fen_to_sfen_locals fen = Ok p
    ∧ fen_to_sfen fen
      = Ok (Py.join " " [sfen_board p; sfen_turn p; sfen_hand p; sfen_move_num p])
    ∧ sfen_move_num p
      = if decide (Py.split " " fen !! 1%nat = Some "b") then "2" else "1".
Proof.
  intros H3 H5.
  destruct (fen_to_sfen_locals_total fen) as (board & hand & Hp).
  eexists. split; [exact Hp|].
  split; [unfold fen_to_sfen; by rewrite Hp|]. cbn [sfen_move_num].
  rewrite (move_num_of_default _ _ H3 H5).
  destruct (decide (swap_colors _ _ = "w")) as [Hw|Hw];
    destruct (decide (_ !! 1%nat = Some "b")) as [Hb|Hb]; try done;
    apply swap_colors_w in Hw || apply swap_colors_w in Hb; done.
Qed.

Lemma move_number_default_witness :
  (∃ p, fen_to_sfen_locals "9/9 w - -" = Ok p ∧ sfen_move_num p = "1")
  ∧ (∃ p, fen_to_sfen_locals "9/9 b - x" = Ok p ∧ sfen_move_num p = "2").
Proof.
  split.
  - destruct (move_number_default "9/9 w - -") as (p & Hp & _ & Hnum).
    + intros f [= <-]. reflexivity.
    + intros f [=].
    + exists p. split; [exact Hp|]. rewrite Hnum. reflexivity.
  - destruct (move_number_default "9/9 b - x") as (p & Hp & _ & Hnum).
    + intros f [= <-]. reflexivity.
    + intros f [=].
    + exists p. split; [exact Hp|]. rewrite Hnum. reflexivity.
Defined.

(** With the counters absent and [b] to move, the move number written is
    [2], not [1]. *)
Lemma move_number_default_b_to_move :
  Py.split " " "9/9 b" !! 3%nat = None
  ∧ Py.split " " "9/9 b" !! 5%nat = None
  ∧ fen_to_sfen "9/9 b" = Ok "9/9 w - 2"
  ∧ fen_to_sfen_locals "9/9 b" = Ok (Sfen "9/9" "w" "-" "2")
  ∧ sfen_move_num (Sfen "9/9" "w" "-" "2") ≠ "1".
Proof. repeat split; done. Qed.

(** ** Position command *)

(** The loop of [uci_to_usi_position], one token at a time. *)
Lemma position_loop_fen (fen_mode move_mode : bool) (out fen rest : list string) :
  position_loop fen_mode move_mode out fen ("fen" :: rest)
  = position_loop true false (out ++ ["sfen"]) fen rest.
Proof. reflexivity. Qed.

Lemma position_loop_moves (fen_mode move_mode : bool) (out fen rest : list string) :
  position_loop fen_mode move_mode out fen ("moves" :: rest)
  = ('(out, fen) ←
       (if decide (0 < length fen)%nat then
          s ← fen_to_sfen (Py.join " " fen);
          mret (out ++ [s], [])
        else mret (out, fen));
     position_loop false true (out ++ ["moves"]) fen rest).
Proof. reflexivity. Qed.

Lemma position_loop_fen_mode (move_mode : bool) (out fen rest : list string) (term : string) :
  term ≠ "fen" → term ≠ "moves" →
  position_loop true move_mode out fen (term :: rest)
  = position_loop true move_mode out (fen ++ [term]) rest.
Proof. intros H1 H2. cbn [position_loop]. by rewrite !decide_False by done. Qed.

Lemma position_loop_move_mode (out fen rest : list string) (term : string) :
  term ≠ "fen" → term ≠ "moves" →
  position_loop false true out fen (term :: rest)
  = (m ← uci_to_usi_move term; position_loop false true (out ++ [m]) fen rest).
Proof. intros H1 H2. cbn [position_loop]. by rewrite !decide_False by done. Qed.

Lemma position_loop_plain (out fen rest : list string) (term : string) :
  term ≠ "fen" → term ≠ "moves" →
  position_loop false false out fen (term :: rest)
  = position_loop false false (out ++ [term]) fen rest.
Proof. intros H1 H2. cbn [position_loop]. by rewrite !decide_False by done. Qed.

Lemma UCI_TO_USI_position : UCI_TO_USI !! "position" = Some uci_to_usi_position.
Proof. reflexivity. Qed.

(** The position string [<board> w - - 0 1], for a board field without
    hand: the board as it is, [b] to move, an empty hand, move number 1. *)
Lemma fen_to_sfen_first_ply (board : string) :
  Py.contains " " board = false → Py.contains "[" board = false →
  fen_to_sfen (board +:+ " w - - 0 1") = Ok (board +:+ " b - 1").
Proof.
  intros Hsp Hbr. unfold fen_to_sfen, fen_to_sfen_locals.
  change (board +:+ " w - - 0 1") with (board +:+ String " " "w - - 0 1").
  rewrite split_field by done.
  change (Py.split " " "w - - 0 1") with ["w"; "-"; "-"; "0"; "1"].
  change (Py.index (board :: ["w"; "-"; "-"; "0"; "1"]) 0) with (Ok board).
  cbn [mbind result_bind]. rewrite separate_hand_no_bracket by done.
  cbn [mbind result_bind].
  change (swap_colors (board :: ["w"; "-"; "-"; "0"; "1"]) "") with "b".
  change (move_num_of (board :: ["w"; "-"; "-"; "0"; "1"]) "b" "1") with "1".
  reflexivity.
Qed.

(** C5. The command [position fen <board> w - - 0 1 moves e2e4], for a
    board field without hand, is rewritten to the tokens [position],
    [sfen], the board as it is, [b], the empty hand [-], the move number
    [1], [moves] and [5h5f].  The list [uci_to_usi] returns carries the
    four fields of the position as one element, [<board> b - 1]; the tokens
    are those of the line the list is joined into. *)
Theorem position_command_rewrite (board : string) :
  Py.contains " " board = false → Py.contains "[" board = false →
  board ≠ "fen" → board ≠ "moves" →
  ∃ out,
    uci_to_usi ["position"; "fen"; board; "w"; "-"; "-"; "0"; "1"; "moves"; "e2e4"]
    = Ok out
    ∧ out = ["position"; "sfen"; board +:+ " b - 1"; "moves"; "5h5f"]
    ∧ Py.join " " out = "position sfen " +:+ board +:+ " b - 1 moves 5h5f"
    ∧ Py.split " " (Py.join " " out)
      = ["position"; "sfen"; board; "b"; "-"; "1"; "moves"; "5h5f"].
Proof.
  intros Hsp Hbr Hfen Hmoves. eexists. split; [|split; [reflexivity|split]].
  - unfold uci_to_usi.
    change (Py.index ("position" :: ?l) 0) with (@Ok string "position").
    cbn [mbind result_bind]. rewrite UCI_TO_USI_position.
    unfold uci_to_usi_position. rewrite decide_False by (cbn; lia).
    cbn [drop].
    rewrite position_loop_fen.
    rewrite position_loop_fen_mode by done.
    rewrite !position_loop_fen_mode by done.
    rewrite position_loop_moves.
    rewrite decide_True by (cbn; lia).
    change (Py.join " " (((((([] ++ [board]) ++ ["w"]) ++ ["-"]) ++ ["-"]) ++ ["0"]) ++ ["1"]))
      with (board +:+ " w - - 0 1").
    rewrite fen_to_sfen_first_ply by done.
    cbn [mbind result_bind mret result_ret].
    rewrite position_loop_move_mode by done.
    change (uci_to_usi_move "e2e4") with (@Ok string "5h5f").
    cbn [mbind result_bind position_loop mret result_ret].
    rewrite decide_False by (cbn; lia). reflexivity.
  - change (Py.join " " ["position"; "sfen"; board +:+ " b - 1"; "moves"; "5h5f"])
      with ("position sfen " +:+ ((board +:+ " b - 1") +:+ " moves 5h5f")).
    by rewrite string_app_assoc.
  - change (Py.join " " ["position"; "sfen"; board +:+ " b - 1"; "moves"; "5h5f"])
      with ("position" +:+ String " " ("sfen" +:+ String " "
              ((board +:+ " b - 1") +:+ " moves 5h5f"))).
    rewrite !split_field by done. rewrite string_app_assoc.
    change (" b - 1" +:+ " moves 5h5f") with (String " " "b - 1 moves 5h5f").
    by rewrite split_field.
Qed.

Lemma position_command_rewrite_witness :
  uci_to_usi
    ["position"; "fen"; "lnsgkgsnl/1r5b1/ppppppppp/9/9/9/PPPPPPPPP/1B5R1/LNSGKGSNL";
     "w"; "-"; "-"; "0"; "1"; "moves"; "e2e4"]
  = Ok ["position"; "sfen";
        "lnsgkgsnl/1r5b1/ppppppppp/9/9/9/PPPPPPPPP/1B5R1/LNSGKGSNL b - 1";
        "moves"; "5h5f"]
  ∧ Py.split " "
      "position sfen lnsgkgsnl/1r5b1/ppppppppp/9/9/9/PPPPPPPPP/1B5R1/LNSGKGSNL b - 1 moves 5h5f"
    = ["position"; "sfen"; "lnsgkgsnl/1r5b1/ppppppppp/9/9/9/PPPPPPPPP/1B5R1/LNSGKGSNL";
       "b"; "-"; "1"; "moves"; "5h5f"].
Proof.
  destruct (position_command_rewrite
              "lnsgkgsnl/1r5b1/ppppppppp/9/9/9/PPPPPPPPP/1B5R1/LNSGKGSNL")
    as (out & Hout & -> & Hjoin & Hsplit); [reflexivity|reflexivity|done|done|].
  split; [exact Hout|]. rewrite Hjoin in Hsplit. exact Hsplit.
Defined.

(** * Further properties of the translator *)

(** ** Squares and moves *)

Lemma square_Ok_two_chars (c0 c1 : ascii) (rest out : string) :
  usi_to_uci_square (String c0 (String c1 rest)) = Ok out →
  ∃ d0 d1, out = String d0 (String d1 "")
    ∧ Py.chr (154 - Py.ord c0) = Ok d0 ∧ Py.chr (154 - Py.ord c1) = Ok d1.
Proof.
  rewrite usi_to_uci_square_chars.
  destruct (Py.chr (154 - Py.ord c0)) as [d0|]; [|done].
  destruct (Py.chr (154 - Py.ord c1)) as [d1|]; [|done].
  intros [= <-]. eauto.
Qed.

Lemma square_transforms_coincide_chars (square : string) :
  usi_to_uci_square square = uci_to_usi_square square.
Proof.
  destruct square as [|c0 [|c1 rest]]; [done|done|].
  by rewrite usi_to_uci_square_chars, uci_to_usi_square_chars.
Qed.

(** X1. The two square transforms are one and the same function: the
    offsets of the digits and of the letters add up to 154 either way. *)
Theorem square_transforms_coincide (square : string) :
  usi_to_uci_square square = uci_to_usi_square square.
Proof. apply square_transforms_coincide_chars. Qed.

(** X2. What a square transform does on every string: [IndexError] below
    two characters; otherwise it reads the first two characters only, and
    raises [ValueError] (from [chr] of a negative number) when one of them
    lies above code point 154, and returns the two mirrored characters when
    none does. *)
Theorem square_transform_cases (square : string) :
  match square with
  | String c0 (String c1 _) =>
      if decide (Py.ord c0 ≤ 154 ∧ Py.ord c1 ≤ 154) then
        usi_to_uci_square square
        = Ok (String (ascii_of_N (Z.to_N (154 - Py.ord c0)))
                (String (ascii_of_N (Z.to_N (154 - Py.ord c1))) ""))
      else usi_to_uci_square square = Raise ValueError
  | _ => usi_to_uci_square square = Raise IndexError
  end.
Proof.
  destruct square as [|c0 [|c1 rest]]; [done|done|].
  rewrite usi_to_uci_square_chars. unfold Py.chr.
  pose proof (ord_range c0) as Hr0. pose proof (ord_range c1) as Hr1.
  destruct (decide (Py.ord c0 ≤ 154 ∧ Py.ord c1 ≤ 154)) as [[H0 H1]|Hn].
  - by rewrite !decide_True by lia.
  - destruct (decide (0 ≤ 154 - Py.ord c0 < 256)); [|done].
    rewrite decide_False by lia. done.
Qed.

(** X3. A normal move of the USI convention, two squares of the board and
    any suffix (a promotion mark), is translated square by square with the
    suffix kept, and the controller-to-engine transform takes the result
    back to the move. *)
Theorem normal_move_round_trip (from to suffix : string) :
  is_usi_square from = true → is_usi_square to = true →
  ∃ from' to',
    usi_to_uci_square from = Ok from' ∧ usi_to_uci_square to = Ok to'
    ∧ usi_to_uci_move (from +:+ to +:+ suffix) = Ok (from' +:+ to' +:+ suffix)
    ∧ uci_to_usi_move (from' +:+ to' +:+ suffix) = Ok (from +:+ to +:+ suffix).
Proof.
  intros Hfrom Hto.
  destruct (usi_to_uci_square_valid from Hfrom) as (from' & Hf & Hfrom').
  destruct (usi_to_uci_square_valid to Hto) as (to' & Ht & Hto').
  destruct (square_two_chars from (or_introl Hfrom)) as (a0 & a1 & -> & Ha0 & Ha1).
  destruct (square_two_chars to (or_introl Hto)) as (b0 & b1 & -> & Hb0 & Hb1).
  destruct (square_mirror_twice a0 a1 Ha0 Ha1) as [Hfb _].
  destruct (square_mirror_twice b0 b1 Hb0 Hb1) as [Htb _].
  rewrite Hf in Hfb. rewrite Ht in Htb. cbn [mbind result_bind] in Hfb, Htb.
  exists from', to'. split; [done|]. split; [done|].
  destruct from' as [|d0 [|d1 [|]]]; try done.
  destruct to' as [|e0 [|e1 [|]]]; try done.
  cbn [is_usi_square is_uci_square] in Hfrom, Hfrom'.
  apply andb_true_iff in Hfrom as [Ha' Ha]. apply bool_decide_eq_true in Ha', Ha.
  apply andb_true_iff in Hfrom' as [Hd0 Hd]. apply bool_decide_eq_true in Hd0, Hd.
  change (Py.ord "a") with 97 in *. change (Py.ord "i") with 105 in *.
  change (Py.ord "1") with 49 in *. change (Py.ord "9") with 57 in *.
  change (String a0 (String a1 "") +:+ String b0 (String b1 "") +:+ suffix)
    with (String a0 (String a1 (String b0 (String b1 suffix)))).
  change (String d0 (String d1 "") +:+ String e0 (String e1 "") +:+ suffix)
    with (String d0 (String d1 (String e0 (String e1 suffix)))).
  split.
  - unfold usi_to_uci_move. rewrite decide_False.
    2:{ intros [= -> _]. change (Py.ord "0") with 48 in Ha'. lia. }
    unfold usi_to_uci_move_try.
    cbn [Py.slice Py.slice_from Py.take Py.drop Py.getitem String.get Nat.sub
         mbind result_bind].
    rewrite decide_False.
    2:{ intros ->. change (Py.ord "*") with 42 in Ha. lia. }
    by rewrite Hf, Ht.
  - unfold uci_to_usi_move. rewrite decide_False.
    2:{ intros [= -> _]. change (Py.ord "0") with 48 in Hd0. lia. }
    unfold uci_to_usi_move_try.
    cbn [Py.slice Py.slice_from Py.take Py.drop Py.getitem String.get Nat.sub
         mbind result_bind].
    rewrite decide_False.
    2:{ intros ->. change (Py.ord "@") with 64 in Hd. lia. }
    by rewrite Hfb, Htb.
Qed.

Lemma normal_move_round_trip_witness :
  usi_to_uci_move "7g7f+" = Ok "c3c4+" ∧ uci_to_usi_move "c3c4+" = Ok "7g7f+".
Proof.
  destruct (normal_move_round_trip "7g" "7f" "+") as (f & t & Hf & Ht & H1 & H2);
    [reflexivity|reflexivity|].
  injection Hf as <-. injection Ht as <-. split; [exact H1|exact H2].
Defined.

(** X4. A drop of the USI convention, any piece character, [*], a square
    of the board and any suffix, is translated to the same piece, [@], the
    transformed square and the same suffix; the controller-to-engine
    transform takes that token back to the drop. *)
Theorem drop_move_round_trip (piece : ascii) (sq suffix : string) :
  is_usi_square sq = true →
  ∃ sq', usi_to_uci_square sq = Ok sq'
    ∧ is_uci_square sq' = true
    ∧ usi_to_uci_move (String piece (String "*" (sq +:+ suffix)))
      = Ok (String piece (String "@" (sq' +:+ suffix)))
    ∧ uci_to_usi_move (String piece (String "@" (sq' +:+ suffix)))
      = Ok (String piece (String "*" (sq +:+ suffix))).
Proof.
  intros Hsq.
  destruct (drop_round_trip piece sq suffix Hsq) as (sq' & Hfwd & H1 & H2).
  destruct (usi_to_uci_square_valid sq Hsq) as (sq'' & Hfwd' & Hvalid).
  rewrite Hfwd in Hfwd'. injection Hfwd' as <-. eauto.
Qed.

Lemma drop_move_round_trip_witness :
  usi_to_uci_move "G*3b+" = Ok "G@g8+" ∧ uci_to_usi_move "G@g8+" = Ok "G*3b+".
Proof.
  destruct (drop_move_round_trip "G" "3b" "+") as (sq' & Hsq & _ & H1 & H2);
    [reflexivity|].
  injection Hsq as <-. split; [exact H1|exact H2].
Defined.

Lemma usi_to_uci_move_try_shape (move out : string) :
  usi_to_uci_move_try move = Ok out →
  String.length out = String.length move
  ∧ Py.slice_from 4 out = Py.slice_from 4 move.
Proof.
  destruct (decide (String.length move < 4)%nat) as [Hshort|Hlong].
  { destruct (usi_to_uci_move_try_short move Hshort) as [e ->]. done. }
  destruct move as [|c0 [|c1 [|c2 [|c3 rest]]]]; cbn in Hlong; try lia.
  unfold usi_to_uci_move_try.
  cbn [Py.slice Py.slice_from Py.take Py.drop Py.getitem String.get Nat.sub
       mbind result_bind].
  destruct (decide (c1 = "*"%char)).
  - destruct (usi_to_uci_square (String c2 (String c3 ""))) as [to|] eqn:Hto; [|done].
    destruct (square_Ok_two_chars _ _ _ _ Hto) as (d0 & d1 & -> & _).
    by intros [= <-].
  - destruct (usi_to_uci_square (String c0 (String c1 ""))) as [from|] eqn:Hfrom; [|done].
    destruct (usi_to_uci_square (String c2 (String c3 ""))) as [to|] eqn:Hto; [|done].
    destruct (square_Ok_two_chars _ _ _ _ Hfrom) as (d0 & d1 & -> & _).
    destruct (square_Ok_two_chars _ _ _ _ Hto) as (e0 & e1 & -> & _).
    by intros [= <-].
Qed.

Lemma uci_to_usi_move_try_shape (move out : string) :
  uci_to_usi_move_try move = Ok out →
  String.length out = String.length move
  ∧ Py.slice_from 4 out = Py.slice_from 4 move.
Proof.
  destruct (decide (String.length move < 4)%nat) as [Hshort|Hlong].
  { destruct (uci_to_usi_move_try_short move Hshort) as [e ->]. done. }
  destruct move as [|c0 [|c1 [|c2 [|c3 rest]]]]; cbn in Hlong; try lia.
  unfold uci_to_usi_move_try.
  cbn [Py.slice Py.slice_from Py.take Py.drop Py.getitem String.get Nat.sub
       mbind result_bind].
  rewrite <- !square_transforms_coincide_chars.
  destruct (decide (c1 = "@"%char)).
  - destruct (usi_to_uci_square (String c2 (String c3 ""))) as [to|] eqn:Hto; [|done].
    destruct (square_Ok_two_chars _ _ _ _ Hto) as (d0 & d1 & -> & _).
    by intros [= <-].
  - destruct (usi_to_uci_square (String c0 (String c1 ""))) as [from|] eqn:Hfrom; [|done].
    destruct (usi_to_uci_square (String c2 (String c3 ""))) as [to|] eqn:Hto; [|done].
    destruct (square_Ok_two_chars _ _ _ _ Hfrom) as (d0 & d1 & -> & _).
    destruct (square_Ok_two_chars _ _ _ _ Hto) as (e0 & e1 & -> & _).
    by intros [= <-].
Qed.

(** X5. A move transform never changes the length of a token, and it
    leaves everything from the fifth character on as it is, whether the
    token parses or not. *)
Theorem move_transform_keeps_length (move : string) :
  (∃ out, usi_to_uci_move move = Ok out
     ∧ String.length out = String.length move
     ∧ Py.slice_from 4 out = Py.slice_from 4 move)
  ∧ (∃ out, uci_to_usi_move move = Ok out
       ∧ String.length out = String.length move
       ∧ Py.slice_from 4 out = Py.slice_from 4 move).
Proof.
  split.
  - unfold usi_to_uci_move. destruct (decide _); [by eexists|].
    destruct (usi_to_uci_move_try move) as [out|] eqn:Htry; [|by eexists].
    exists out. split; [done|]. by apply usi_to_uci_move_try_shape.
  - unfold uci_to_usi_move. destruct (decide _); [by eexists|].
    destruct (uci_to_usi_move_try move) as [out|] eqn:Htry; [|by eexists].
    exists out. split; [done|]. by apply uci_to_usi_move_try_shape.
Qed.

(** ** The [info] handler *)

Lemma move_keywords_are_keywords : USI_INFO_MOVE_KEYWORDS ⊆ USI_INFO_KEYWORDS.
Proof. apply (bool_decide_unpack _). by vm_compute. Qed.

Lemma mate_keyword : "mate" ∈ USI_INFO_KEYWORDS ∧ "mate" ∉ USI_INFO_MOVE_KEYWORDS.
Proof.
  split; apply (bool_decide_unpack _); by vm_compute.
Qed.

Lemma string_keyword : "string" ∈ USI_INFO_KEYWORDS ∧ "string" ∉ USI_INFO_MOVE_KEYWORDS.
Proof.
  split; apply (bool_decide_unpack _); by vm_compute.
Qed.

(** One turn of the loop on a token that is no keyword: the flags stay,
    and the token is translated when [convert_move] is set. *)
Lemma info_loop_value (convert_move convert_mate : bool) (term : string) (rest : list string) :
  term ∉ USI_INFO_KEYWORDS →
  usi_to_uci_info_loop convert_move convert_mate (term :: rest)
  = (term' ← (if convert_move then usi_to_uci_move term else mret term);
     rest' ← usi_to_uci_info_loop convert_move convert_mate rest;
     mret (term' :: rest')).
Proof.
  intros Hkw. cbn [usi_to_uci_info_loop]. rewrite bool_decide_eq_false_2 by done.
  assert (term ≠ "mate") by (intros ->; by destruct mate_keyword).
  assert (term ≠ "string") by (intros ->; by destruct string_keyword).
  assert (term ∉ USI_INFO_MOVE_KEYWORDS)
    by (intros Hm; by apply Hkw, move_keywords_are_keywords).
  destruct (if convert_move then _ else _); [|done]. cbn [mbind result_bind].
  by rewrite !decide_False by done.
Qed.

(** One turn of the loop on a keyword: it is kept, the flags are reset,
    and the keyword decides what they are for the next token. *)
Lemma info_loop_keyword (convert_move convert_mate : bool) (term : string) (rest : list string) :
  term ∈ USI_INFO_KEYWORDS →
  usi_to_uci_info_loop convert_move convert_mate (term :: rest)
  = if decide (term = "mate") then
      rest' ← usi_to_uci_info_loop false true rest; mret (term :: rest')
    else if decide (term ∈ USI_INFO_MOVE_KEYWORDS) then
      rest' ← usi_to_uci_info_loop true false rest; mret (term :: rest')
    else if decide (term = "string") then mret (term :: rest)
    else rest' ← usi_to_uci_info_loop false false rest; mret (term :: rest').
Proof.
  intros Hkw. cbn [usi_to_uci_info_loop]. by rewrite bool_decide_eq_true_2 by done.
Qed.

Lemma info_loop_frame (terms : list string) (convert_move convert_mate : bool) :
  ∃ out, usi_to_uci_info_loop convert_move convert_mate terms = Ok out
    ∧ Forall2 (λ t o, (t ∈ USI_INFO_KEYWORDS ∨ convert_move = false → o = t)
                      ∧ (o = t ∨ usi_to_uci_move t = Ok o)) (take 1 terms) (take 1 out)
    ∧ Forall2 (λ t o, (t ∈ USI_INFO_KEYWORDS → o = t)
                      ∧ (o = t ∨ usi_to_uci_move t = Ok o)) terms out.
Proof.
  revert convert_move convert_mate.
  induction terms as [|term rest IH]; intros cm ct.
  { exists []. by repeat split. }
  destruct (decide (term ∈ USI_INFO_KEYWORDS)) as [Hkw|Hkw].
  - rewrite (info_loop_keyword _ _ _ _ Hkw).
    repeat case_decide;
      try (match goal with
           | |- context [usi_to_uci_info_loop ?a ?b rest] =>
               destruct (IH a b) as (out & -> & _ & Hall)
           end; cbn [mbind result_bind mret result_ret]);
      eexists; (split; [reflexivity|]);
      (split; [cbn [take]; repeat constructor; auto|]);
      constructor; auto.
    clear. induction rest; constructor; auto.
  - rewrite (info_loop_value _ _ _ _ Hkw).
    destruct (IH cm ct) as (out & -> & _ & Hall).
    destruct cm.
    + destruct (usi_to_uci_move_total term) as [m Hm]. rewrite Hm.
      cbn [mbind result_bind mret result_ret]. eexists. split; [reflexivity|].
      split; [cbn [take]; repeat constructor; auto; intros [|]; done|].
      constructor; auto. split; [done|auto].
    + cbn [mbind result_bind mret result_ret]. eexists. split; [reflexivity|].
      split; [cbn [take]; repeat constructor; auto|].
      constructor; auto.
Qed.

(** X6. [usi_to_uci_info] never raises and keeps the number of tokens.
    The first token (the verb) and every keyword are returned as they are;
    every other token is either returned as it is or replaced by its move
    transform. *)
Theorem info_frame (cmd : list string) :
  ∃ out, usi_to_uci_info cmd = Ok out
    ∧ length out = length cmd
    ∧ out !! 0%nat = cmd !! 0%nat
    ∧ (∀ i t, cmd !! i = Some t → t ∈ USI_INFO_KEYWORDS → out !! i = Some t)
    ∧ (∀ i t, cmd !! i = Some t →
         ∃ o, out !! i = Some o ∧ (o = t ∨ usi_to_uci_move t = Ok o)).
Proof.
  destruct (info_loop_frame cmd false false) as (out & Hout & Hhead & Hall).
  exists out. split; [exact Hout|].
  split; [symmetry; by eapply Forall2_length|].
  split.
  { destruct cmd as [|t cmd], out as [|o out]; try done;
      cbn [take] in Hhead; try by inversion Hhead.
    apply Forall2_cons_1 in Hhead as [[-> _] _]; auto. }
  split.
  - intros i t Ht Hkw.
    destruct (Forall2_lookup_l _ _ _ _ _ Hall Ht) as (o & Ho & Heq & _).
    by rewrite Ho, (Heq Hkw).
  - intros i t Ht.
    destruct (Forall2_lookup_l _ _ _ _ _ Hall Ht) as (o & Ho & _ & Hor). eauto.
Qed.

Lemma info_frame_witness :
  ∃ out, usi_to_uci_info ["info"; "depth"; "3"; "pv"; "7g7f"] = Ok out
    ∧ out !! 0%nat = Some "info" ∧ out !! 3%nat = Some "pv".
Proof.
  destruct (info_frame ["info"; "depth"; "3"; "pv"; "7g7f"])
    as (out & Hout & _ & Hhead & Hkw & _).
  exists out. split; [exact Hout|]. split; [exact Hhead|].
  apply Hkw; [reflexivity|]. apply (bool_decide_unpack _). vm_compute. exact I.
Defined.

Lemma info_loop_string (pre rest : list string) (convert_move convert_mate : bool) :
  ∃ pre', usi_to_uci_info_loop convert_move convert_mate (pre ++ "string" :: rest)
          = Ok (pre' ++ "string" :: rest)
    ∧ length pre' = length pre.
Proof.
  revert convert_move convert_mate.
  induction pre as [|term pre IH]; intros cm ct.
  { exists []. split; [|done]. cbn [app].
    rewrite info_loop_keyword by apply string_keyword.
    rewrite decide_False by done.
    rewrite decide_False by apply string_keyword.
    by rewrite decide_True. }
  cbn [app]. destruct (decide (term ∈ USI_INFO_KEYWORDS)) as [Hkw|Hkw].
  - rewrite (info_loop_keyword _ _ _ _ Hkw).
    repeat case_decide;
      try (match goal with
           | |- context [usi_to_uci_info_loop ?a ?b _] =>
               destruct (IH a b) as (pre' & -> & Hlen)
           end; cbn [mbind result_bind mret result_ret];
           exists (term :: pre'); split; [done|]; cbn; by rewrite Hlen).
    by exists (term :: pre).
  - rewrite (info_loop_value _ _ _ _ Hkw).
    destruct (IH cm ct) as (pre' & -> & Hlen).
    destruct (usi_to_uci_move_total term) as [m Hm].
    destruct cm; [rewrite Hm|]; cbn [mbind result_bind mret result_ret];
      eexists (_ :: pre'); (split; [done|]); cbn; by rewrite Hlen.
Qed.

(** X7. Free text is not scanned: in an [info] command with a [string]
    token, everything behind that token is returned as it is, move
    keywords and tokens that look like moves included. *)
Theorem info_string_rest_untouched (pre rest : list string) :
  ∃ pre', usi_to_uci_info (pre ++ "string" :: rest) = Ok (pre' ++ "string" :: rest)
    ∧ length pre' = length pre.
Proof. apply info_loop_string. Qed.

(** The loop up to a point before any [string] token: the tokens behind
    that point are handled by the loop as it stands there. *)
Lemma info_loop_app (pre : list string) (convert_move convert_mate : bool) :
  "string" ∉ pre →
  ∃ pre' convert_move' convert_mate', length pre' = length pre
    ∧ ∀ l, usi_to_uci_info_loop convert_move convert_mate (pre ++ l)
           = (l' ← usi_to_uci_info_loop convert_move' convert_mate' l;
              mret (pre' ++ l')).
Proof.
  revert convert_move convert_mate.
  induction pre as [|term pre IH]; intros cm ct Hpre.
  { exists [], cm, ct. split; [done|]. intros l. cbn [app].
    by destruct (usi_to_uci_info_loop cm ct l). }
  apply not_elem_of_cons in Hpre as [Hterm Hpre].
  cbn [app]. destruct (decide (term ∈ USI_INFO_KEYWORDS)) as [Hkw|Hkw].
  - destruct (decide (term = "mate")) as [Hmate|Hmate];
      [|destruct (decide (term ∈ USI_INFO_MOVE_KEYWORDS)) as [Hmove|Hmove]];
      [destruct (IH false true Hpre) as (pre' & cm' & ct' & Hlen & Hl)
      |destruct (IH true false Hpre) as (pre' & cm' & ct' & Hlen & Hl)
      |destruct (IH false false Hpre) as (pre' & cm' & ct' & Hlen & Hl)];
      exists (term :: pre'), cm', ct'; (split; [cbn; by rewrite Hlen|]);
      intros l; rewrite (info_loop_keyword _ _ _ _ Hkw);
      rewrite ?(decide_True (P := term = "mate")), ?(decide_False (P := term = "mate")),
        ?(decide_True (P := term ∈ USI_INFO_MOVE_KEYWORDS)),
        ?(decide_False (P := term ∈ USI_INFO_MOVE_KEYWORDS)),
        ?(decide_False (P := term = "string")) by done;
      rewrite Hl; by destruct (usi_to_uci_info_loop cm' ct' l).
  - destruct (IH cm ct Hpre) as (pre' & cm' & ct' & Hlen & Hl).
    destruct (usi_to_uci_move_total term) as [m Hm].
    exists ((if cm then m else term) :: pre'), cm', ct'.
    split; [cbn; by rewrite Hlen|].
    intros l. rewrite (info_loop_value _ _ _ _ Hkw), Hl.
    destruct cm; [rewrite Hm|]; cbn [mbind result_bind mret result_ret];
      by destruct (usi_to_uci_info_loop cm' ct' l).
Qed.

(** With [convert_move] set, tokens that are no keywords are all moves. *)
Lemma info_loop_moves (ms : list string) (convert_mate : bool) (tail tail' : list string) :
  Forall (λ m, m ∉ USI_INFO_KEYWORDS) ms →
  usi_to_uci_info_loop true convert_mate tail = Ok tail' →
  ∃ ms', usi_to_uci_info_loop true convert_mate (ms ++ tail) = Ok (ms' ++ tail')
    ∧ Forall2 (λ m m', usi_to_uci_move m = Ok m') ms ms'.
Proof.
  intros Hms Htail. induction Hms as [|m ms Hm Hms IH].
  { exists []. by split. }
  destruct IH as (ms' & IH & Hall).
  destruct (usi_to_uci_move_total m) as [m' Hm'].
  exists (m' :: ms'). split; [|by constructor].
  cbn [app]. rewrite (info_loop_value _ _ _ _ Hm), Hm', IH. done.
Qed.

(** Without [convert_move], tokens that are no keywords are left alone. *)
Lemma info_loop_values (vs : list string) (convert_mate : bool) :
  Forall (λ v, v ∉ USI_INFO_KEYWORDS) vs →
  usi_to_uci_info_loop false convert_mate vs = Ok vs.
Proof.
  induction 1 as [|v vs Hv Hvs IH]; [done|].
  by rewrite (info_loop_value _ _ _ _ Hv), IH.
Qed.

(** X8. In an [info] command, the tokens that follow a move keyword ([pv],
    [currmove], [refutation], [currline]) are replaced by their move
    transforms, one by one, up to the end of the command or the next
    keyword; the values behind a next keyword that is no move keyword are
    returned as they are. *)
Theorem info_moves_translated (pre ms : list string) (kw : string) :
  "string" ∉ pre → kw ∈ USI_INFO_MOVE_KEYWORDS →
  Forall (λ m, m ∉ USI_INFO_KEYWORDS) ms →
  ∃ pre' ms', length pre' = length pre
    ∧ Forall2 (λ m m', usi_to_uci_move m = Ok m') ms ms'
    ∧ usi_to_uci_info (pre ++ kw :: ms) = Ok (pre' ++ kw :: ms')
    ∧ ∀ kw2 vs, kw2 ∈ USI_INFO_KEYWORDS → kw2 ∉ USI_INFO_MOVE_KEYWORDS →
        Forall (λ v, v ∉ USI_INFO_KEYWORDS) vs →
        usi_to_uci_info (pre ++ kw :: ms ++ kw2 :: vs)
        = Ok (pre' ++ kw :: ms' ++ kw2 :: vs).
Proof.
  intros Hpre Hkw Hms.
  destruct (info_loop_app pre false false Hpre) as (pre' & cm & ct & Hlen & Happ).
  assert (kw ∈ USI_INFO_KEYWORDS) as Hkw' by by apply move_keywords_are_keywords.
  assert (kw ≠ "mate") as Hmate by (intros ->; by destruct mate_keyword).
  destruct (info_loop_moves ms false [] [] Hms eq_refl) as (ms' & Hloop & Hall).
  rewrite !app_nil_r in Hloop.
  exists pre', ms'. split; [done|]. split; [done|]. split.
  - unfold usi_to_uci_info. rewrite Happ, (info_loop_keyword _ _ _ _ Hkw').
    rewrite decide_False, decide_True by done. by rewrite Hloop.
  - intros kw2 vs Hkw2 Hnomove Hvs.
    assert (usi_to_uci_info_loop true false (kw2 :: vs) = Ok (kw2 :: vs)) as Htail.
    { rewrite (info_loop_keyword _ _ _ _ Hkw2).
      destruct (decide (kw2 = "mate")); [by rewrite info_loop_values|].
      rewrite decide_False by done.
      destruct (decide (kw2 = "string")); [done|]. by rewrite info_loop_values. }
    destruct (info_loop_moves ms false _ _ Hms Htail) as (ms'' & Hloop' & Hall').
    assert (ms'' = ms') as ->.
    { clear -Hall Hall'. revert ms'' Hall'.
      induction Hall as [|m m' ms ms' Hm Hall IH]; intros ms'' Hall';
        inversion Hall' as [|? m'' ? ms''' Hm'' Hall'']; subst; [done|].
      rewrite Hm in Hm''. injection Hm'' as <-. f_equal. by apply IH. }
    unfold usi_to_uci_info. rewrite Happ, (info_loop_keyword _ _ _ _ Hkw').
    rewrite decide_False, decide_True by done. by rewrite Hloop'.
Qed.

Lemma info_moves_translated_witness :
  ∃ pre' ms', length pre' = 3%nat
    ∧ Forall2 (λ m m', usi_to_uci_move m = Ok m') ["7g7f"; "3c3d"] ms'
    ∧ usi_to_uci_info ["info"; "depth"; "3"; "pv"; "7g7f"; "3c3d"; "nodes"; "7g7f"]
      = Ok (pre' ++ "pv" :: ms' ++ ["nodes"; "7g7f"]).
Proof.
  destruct (info_moves_translated ["info"; "depth"; "3"] ["7g7f"; "3c3d"] "pv")
    as (pre' & ms' & Hlen & Hall & _ & Hnext).
  - apply (bool_decide_unpack _). vm_compute. exact I.
  - apply (bool_decide_unpack _). vm_compute. exact I.
  - repeat constructor; apply (bool_decide_unpack _); vm_compute; exact I.
  - exists pre', ms'. split; [exact Hlen|]. split; [exact Hall|].
    apply (Hnext "nodes" ["7g7f"]).
    + apply (bool_decide_unpack _). vm_compute. exact I.
    + apply (bool_decide_unpack _). vm_compute. exact I.
    + repeat constructor; apply (bool_decide_unpack _); vm_compute; exact I.
Defined.

(** ** The option handlers *)

(** X9. [usi_to_uci_option] never raises and keeps the number of tokens.
    Only the tokens at index 2 and 4 can change: behind [name], the token
    at index 2 is replaced by its alias; the token at index 4 becomes
    [string] exactly when it is [filename] behind [type].  A command of
    fewer than three tokens, or without [name] at index 1, is returned as
    it is. *)
Theorem option_frame (cmd : list string) :
  ∃ out, usi_to_uci_option cmd = Ok out
    ∧ length out = length cmd
    ∧ (∀ i, i ≠ 2%nat → i ≠ 4%nat → out !! i = cmd !! i)
    ∧ ((length cmd < 3)%nat ∨ cmd !! 1%nat ≠ Some "name" → out = cmd)
    ∧ (∀ n, cmd !! 1%nat = Some "name" → cmd !! 2%nat = Some n →
         out !! 2%nat = Some (get_or_self USI_TO_UCI_OPTIONS n))
    ∧ (∀ t, cmd !! 4%nat = Some t →
         out !! 4%nat
         = Some (if decide (cmd !! 1%nat = Some "name" ∧ cmd !! 3%nat = Some "type"
                            ∧ t = "filename")
                 then "string" else t)).
Proof.
  unfold usi_to_uci_option. destruct (decide _) as [Hguard|Hguard].
  - exists cmd. repeat split; try done.
    + intros n H1 H2. destruct Hguard as [Hlen|Hname]; [|done].
      apply lookup_lt_Some in H2. lia.
    + intros t Ht. rewrite decide_False; [done|].
      intros (H1 & _ & _). destruct Hguard as [Hlen|Hname]; [|done].
      apply lookup_lt_Some in Ht. lia.
  - assert (¬ (length cmd < 3)%nat ∧ cmd !! 1%nat = Some "name") as [Hlen Hname].
    { split; [intros ?; apply Hguard; by left|].
      destruct (decide (cmd !! 1%nat = Some "name")); [done|].
      exfalso. apply Hguard. by right. }
    destruct (lookup_lt_is_Some_2 cmd 2) as [n Hn]; [lia|].
    unfold Py.index. rewrite Hn. cbn [mbind result_bind].
    set (cmd' := <[2%nat := get_or_self USI_TO_UCI_OPTIONS n]> cmd).
    assert (∀ i, i ≠ 2%nat → cmd' !! i = cmd !! i) as Hother
      by (intros i Hi; by apply list_lookup_insert_ne).
    assert (length cmd' = length cmd) as Hlen' by apply length_insert.
    destruct (decide _) as [(H5 & H3 & H4)|Hno].
    + exists (<[4%nat := "string"]> cmd'). split; [done|].
      split; [by rewrite length_insert|].
      split; [intros i H2 Hi4; rewrite list_lookup_insert_ne by done; by apply Hother|].
      split; [intros [?|?]; [lia|done]|].
      split.
      * intros n' _ [= <-].
        rewrite list_lookup_insert_ne by done. apply list_lookup_insert_eq. lia.
      * intros t Ht. rewrite list_lookup_insert_eq by lia.
        rewrite Hother in H3, H4 by done. rewrite Ht in H4. injection H4 as ->.
        by rewrite decide_True.
    + exists cmd'. split; [done|]. split; [done|].
      split; [intros i H2 _; by apply Hother|].
      split; [intros [?|?]; [lia|done]|].
      split.
      * intros n' _ [= <-].
        apply list_lookup_insert_eq. lia.
      * intros t Ht. rewrite Hother by done. rewrite Ht. f_equal.
        destruct (decide _) as [(_ & H3 & ->)|]; [|done].
        exfalso. apply Hno. rewrite !Hother by done.
        split; [|done]. apply lookup_lt_Some in Ht. lia.
Qed.

Lemma option_frame_witness :
  ∃ out, usi_to_uci_option ["option"; "name"; "USI_Hash"; "type"; "filename"] = Ok out
    ∧ out !! 2%nat = Some "Hash" ∧ out !! 4%nat = Some "string"
    ∧ out !! 3%nat = Some "type".
Proof.
  destruct (option_frame ["option"; "name"; "USI_Hash"; "type"; "filename"])
    as (out & Hout & _ & Hother & _ & Hname & Htype).
  exists out. split; [exact Hout|]. split; [|split].
  - apply (Hname "USI_Hash"); reflexivity.
  - apply (Htype "filename"). reflexivity.
  - apply Hother; lia.
Defined.

Lemma setoption_loop_after (name after terms : list string) :
  setoption_loop false name after terms = (name, after ++ terms).
Proof.
  revert after. induction terms as [|term terms IH]; intros after; cbn [setoption_loop].
  - by rewrite app_nil_r.
  - destruct (decide (term = "value")); by rewrite IH, <- app_assoc.
Qed.

Lemma setoption_loop_name (nm name after terms : list string) :
  "value" ∉ nm →
  setoption_loop true name after (nm ++ terms)
  = setoption_loop true (name ++ nm) after terms.
Proof.
  revert name. induction nm as [|term nm IH]; intros name Hnm.
  - by rewrite app_nil_r.
  - apply not_elem_of_cons in Hnm as [Hterm Hnm]. cbn [app setoption_loop].
    rewrite decide_False by done. by rewrite IH, <- app_assoc.
Qed.

Lemma setoption_shape_loop (verb : string) (nm v : list string) :
  "value" ∉ nm →
  uci_to_usi_setoption (verb :: "name" :: nm ++ "value" :: v)
  = Ok ([verb; "name"; get_or_self UCI_TO_USI_OPTIONS (Py.join "_" nm)] ++ "value" :: v)
  ∧ (nm ≠ [] →
     uci_to_usi_setoption (verb :: "name" :: nm)
     = Ok [verb; "name"; get_or_self UCI_TO_USI_OPTIONS (Py.join "_" nm)]).
Proof.
  intros Hnm. split.
  - unfold uci_to_usi_setoption. rewrite decide_False.
    2:{ intros [Hlen|Hname]; [|done]. cbn in Hlen. rewrite length_app in Hlen.
        cbn in Hlen. lia. }
    change (drop 2 (verb :: "name" :: ?l)) with l.
    change (take 2 (verb :: "name" :: ?l)) with [verb; "name"]. rewrite (setoption_loop_name nm [] []) by done.
    cbn [setoption_loop app]. rewrite decide_True by done.
    by rewrite setoption_loop_after.
  - intros Hne. unfold uci_to_usi_setoption. rewrite decide_False.
    2:{ intros [Hlen|Hname]; [|done]. destruct nm; [done|]. cbn in Hlen. lia. }
    change (drop 2 (verb :: "name" :: ?l)) with l.
    change (take 2 (verb :: "name" :: ?l)) with [verb; "name"]. rewrite <- (app_nil_r nm) at 1.
    rewrite (setoption_loop_name nm [] [] []) by done. done.
Qed.

(** X10. The words of an option name, up to the first [value] token, are
    joined by underscores into one token, which is replaced by its alias;
    [value] and everything behind it follow as they are.  (With no word
    before [value], the name token is the empty string.) *)
Theorem setoption_shape (verb : string) (nm v : list string) :
  "value" ∉ nm →
  uci_to_usi_setoption (verb :: "name" :: nm ++ "value" :: v)
  = Ok ([verb; "name"; get_or_self UCI_TO_USI_OPTIONS (Py.join "_" nm)] ++ "value" :: v)
  ∧ (nm ≠ [] →
     uci_to_usi_setoption (verb :: "name" :: nm)
     = Ok [verb; "name"; get_or_self UCI_TO_USI_OPTIONS (Py.join "_" nm)]).
Proof. apply setoption_shape_loop. Qed.

Lemma setoption_shape_witness :
  uci_to_usi_setoption ["setoption"; "name"; "UCI"; "Variant"; "value"; "shogi"]
  = Ok ["setoption"; "name"; "USI_Variant"; "value"; "shogi"]
  ∧ uci_to_usi_setoption ["setoption"; "name"; "value"; "3"]
    = Ok ["setoption"; "name"; ""; "value"; "3"].
Proof.
  split.
  - apply (setoption_shape "setoption" ["UCI"; "Variant"] ["shogi"]).
    apply (bool_decide_unpack _). vm_compute. exact I.
  - apply (setoption_shape "setoption" [] ["3"]).
    apply (bool_decide_unpack _). vm_compute. exact I.
Defined.

(** X11. An option the engine declares can be set under the name the
    controller was shown: the alias [usi_to_uci_option] writes at index 2
    is taken back to the engine's name by [uci_to_usi_setoption], for every
    name that is no key of the controller-to-engine alias table (and is not
    the word [value]). *)
Theorem option_name_round_trip (n v : string) (rest : list string) :
  n ∉ dom UCI_TO_USI_OPTIONS → n ≠ "value" →
  ∃ out n', usi_to_uci_option ("option" :: "name" :: n :: rest) = Ok out
    ∧ out !! 2%nat = Some n'
    ∧ uci_to_usi_setoption ["setoption"; "name"; n'; "value"; v]
      = Ok ["setoption"; "name"; n; "value"; v].
Proof.
  intros Hdom Hvalue. apply not_elem_of_dom in Hdom.
  assert (∃ out, usi_to_uci_option ("option" :: "name" :: n :: rest) = Ok out
            ∧ out !! 2%nat = Some (get_or_self USI_TO_UCI_OPTIONS n))
    as (out & Hout & Hname).
  { unfold usi_to_uci_option. rewrite decide_False.
    2:{ intros [Hlen|Hname]; [cbn in Hlen; lia|done]. }
    change (Py.index ("option" :: "name" :: n :: rest) 2) with (Ok n).
    cbn [mbind result_bind].
    destruct (decide _); eexists; (split; [reflexivity|]); [|done].
    by rewrite list_lookup_insert_ne. }
  exists out, (get_or_self USI_TO_UCI_OPTIONS n).
  split; [done|]. split; [done|].
  assert (get_or_self UCI_TO_USI_OPTIONS (get_or_self USI_TO_UCI_OPTIONS n) = n
          ∧ get_or_self USI_TO_UCI_OPTIONS n ≠ "value") as [Hback Hne].
  { unfold get_or_self at 2 3.
    destruct (USI_TO_UCI_OPTIONS !! n) as [n'|] eqn:Hn; cbn [default].
    - apply (elem_of_list_to_map_2 (M := gmap string)) in Hn.
      cbn in Hn. rewrite !elem_of_cons in Hn.
      destruct Hn as [[= -> ->]|[[= -> ->]|Hn]];
        [by vm_compute|by vm_compute|by apply elem_of_nil in Hn].
    - unfold get_or_self. by rewrite Hdom. }
  destruct (setoption_shape_loop "setoption" [get_or_self USI_TO_UCI_OPTIONS n] [v])
    as [Hshape _].
  { intros [Heq|Hin]%elem_of_cons; [by symmetry in Heq|by apply elem_of_nil in Hin]. }
  cbn [app Py.join] in Hshape. by rewrite Hback in Hshape.
Qed.

Lemma option_name_round_trip_witness :
  ∃ out, usi_to_uci_option ["option"; "name"; "USI_Hash"; "type"; "spin"] = Ok out
    ∧ out !! 2%nat = Some "Hash"
    ∧ uci_to_usi_setoption ["setoption"; "name"; "Hash"; "value"; "64"]
      = Ok ["setoption"; "name"; "USI_Hash"; "value"; "64"].
Proof.
  destruct (option_name_round_trip "USI_Hash" "64" ["type"; "spin"])
    as (out & n' & Hout & Hn' & Hset).
  - apply (bool_decide_unpack _). vm_compute. exact I.
  - discriminate.
  - exists out. split; [exact Hout|].
    assert (n' = "Hash") as ->.
    { vm_compute in Hout. injection Hout as <-. vm_compute in Hn'.
      injection Hn' as <-. reflexivity. }
    split; [exact Hn'|exact Hset].
Defined.

(** ** Hand and board fields *)

Lemma occurrences_Permutation (c : ascii) (p1 p2 : string) :
  String.list_ascii_of_string p1 ≡ₚ String.list_ascii_of_string p2 →
  occurrences c p1 = occurrences c p2.
Proof. intros Hperm. unfold occurrences. by rewrite Hperm. Qed.

(** X12. The hand string depends on how many of each piece the bracket
    holds, not on the order in which they are listed: two bracket contents
    that are permutations of each other give the same hand string. *)
Theorem hand_str_order_independent (pieces1 pieces2 : string) :
  String.list_ascii_of_string pieces1 ≡ₚ String.list_ascii_of_string pieces2 →
  hand_str_of (hand_count_of pieces1) = hand_str_of (hand_count_of pieces2).
Proof.
  intros Hperm. apply hand_str_of_ext. intros c _.
  by rewrite !hand_count_of_default, (occurrences_Permutation c _ _ Hperm).
Qed.

Lemma hand_str_order_independent_witness :
  hand_str_of (hand_count_of "pRPpR") = hand_str_of (hand_count_of "RRPpp").
Proof.
  apply (hand_str_order_independent "pRPpR" "RRPpp").
  cbn. apply (bool_decide_unpack _). vm_compute. exact I.
Defined.






(** ** The turn number *)

Lemma int_digits_not_decimal (f : string) (acc : Z) :
  Py.forall_chars Py.is_decimal_char f = false →
  Py.int_digits acc f = Raise ValueError.
Proof.
  revert acc. induction f as [|c f IH]; intros acc; cbn; [done|].
  destruct (Py.is_decimal_char c); [|done]. cbn. apply IH.
Qed.



(** X15. A field at index 5 that passes [isdigit] without being a decimal
    number (it holds a superscript digit) makes [int] raise inside the
    [try] block; the handler leaves the field in [move_num], and the field
    itself is written as the move number, whoever is to move. *)
Theorem move_number_not_decimal (fen f : string) :
  Py.split " " fen !! 5%nat = Some f →
  Py.isdigit f = true → Py.isdecimal f = false →
  Py.int f = Raise ValueError
  ∧ ∃ p, fen_to_sfen_locals fen = Ok p ∧ sfen_move_num p = f.
Proof.
  intros Hf Hdigit Hdec.
  assert (Py.int f = Raise ValueError) as Hint.
  { destruct f as [|c f]; [done|]. by apply int_digits_not_decimal. }
  split; [done|].
  destruct (fen_to_sfen_locals_total fen) as (board & hand & Hp).
  eexists. split; [exact Hp|]. cbn [sfen_move_num].
  unfold move_num_of. by rewrite Hf, Hdigit, Hint.
Qed.

Lemma move_number_not_decimal_witness :
  ∃ p, fen_to_sfen_locals ("9/9 b - - 0 1" +:+ String "178"%char "") = Ok p
    ∧ sfen_move_num p = "1" +:+ String "178"%char "".
Proof.
  destruct (move_number_not_decimal ("9/9 b - - 0 1" +:+ String "178"%char "")
              ("1" +:+ String "178"%char "")) as (_ & p & Hp & Hnum);
    [reflexivity|reflexivity|reflexivity|].
  exists p. split; [exact Hp|exact Hnum].
Defined.

(** ** The fields of the output *)












(** ** The position handler *)


Lemma position_loop_move_list (ms out fen : list string) :
  Forall (λ t, t ≠ "fen" ∧ t ≠ "moves") ms →
  ∃ ms', Forall2 (λ m m', uci_to_usi_move m = Ok m') ms ms'
    ∧ position_loop false true out fen ms = Ok (out ++ ms', fen).
Proof.
  intros Hms. revert out. induction Hms as [|m ms [H1 H2] _ IH]; intros out.
  - exists []. split; [constructor|]. cbn. by rewrite app_nil_r.
  - destruct (uci_to_usi_move_total m) as [m' Hm'].
    destruct (IH (out ++ [m'])) as (ms' & Hall & Hloop).
    exists (m' :: ms'). split; [by constructor|].
    rewrite position_loop_move_mode by done. rewrite Hm'.
    cbn [mbind result_bind]. by rewrite Hloop, <- app_assoc.
Qed.

Lemma position_loop_plain_list (ts out fen : list string) :
  Forall (λ t, t ≠ "fen" ∧ t ≠ "moves") ts →
  position_loop false false out fen ts = Ok (out ++ ts, fen).
Proof.
  intros Hts. revert out. induction Hts as [|t ts [H1 H2] _ IH]; intros out.
  - cbn. by rewrite app_nil_r.
  - rewrite position_loop_plain by done. by rewrite IH, <- app_assoc.
Qed.



(** X18. A [position] command without position string ([startpos]): the
    tokens before [moves] are returned as they are, and every token behind
    [moves] is replaced by its move transform. *)
Theorem position_startpos_rewrite (pre ms : list string) :
  Forall (λ t, t ≠ "fen" ∧ t ≠ "moves") pre →
  Forall (λ t, t ≠ "fen" ∧ t ≠ "moves") ms →
  ∃ ms', Forall2 (λ m m', uci_to_usi_move m = Ok m') ms ms'
    ∧ uci_to_usi_position ("position" :: pre ++ "moves" :: ms)
      = Ok ("position" :: pre ++ "moves" :: ms').
Proof.
  intros Hpre Hms.
  destruct (position_loop_move_list ms ((["position"] ++ pre) ++ ["moves"]) [] Hms)
    as (ms' & Hall & Hloop).
  exists ms'. split; [done|].
  unfold uci_to_usi_position.
  destruct (decide _) as [Hshort|_].
  { cbn in Hshort. rewrite length_app in Hshort. cbn in Hshort.
    destruct pre, ms; cbn in Hshort; try lia. by inversion Hall. }
  change (drop 1 ("position" :: ?l)) with l.
  assert (∀ out rest,
            position_loop false false out [] (pre ++ rest)
            = position_loop false false (out ++ pre) [] rest) as Hplain.
  { clear -Hpre. induction Hpre as [|t pre [H1 H2] _ IH]; intros out rest.
    - by rewrite app_nil_r.
    - cbn [app]. rewrite position_loop_plain by done.
      by rewrite IH, <- app_assoc. }
  rewrite Hplain, position_loop_moves. rewrite decide_False by (cbn; lia).
  cbn [mbind result_bind mret result_ret]. rewrite Hloop.
  cbn [mbind result_bind]. rewrite decide_False by (cbn; lia).
  cbn [mret result_ret]. by rewrite <- !app_assoc.
Qed.

Lemma position_startpos_rewrite_witness :
  ∃ ms', uci_to_usi_position ["position"; "startpos"; "moves"; "c3c4"; "g7g6"]
         = Ok ("position" :: "startpos" :: "moves" :: ms')
    ∧ Forall2 (λ m m', uci_to_usi_move m = Ok m') ["c3c4"; "g7g6"] ms'.
Proof.
  destruct (position_startpos_rewrite ["startpos"] ["c3c4"; "g7g6"])
    as (ms' & Hall & Hcmd).
  - repeat constructor; discriminate.
  - repeat constructor; discriminate.
  - exists ms'. split; [exact Hcmd|exact Hall].
Defined.

(** ** Dispatch and the line pumps *)

Lemma usi_to_uci_bestmove_length (cmd : list string) :
  ∃ out, usi_to_uci_bestmove cmd = Ok out ∧ length out = length cmd.
Proof.
  unfold usi_to_uci_bestmove. destruct (decide _) as [Hlen|Hlen]; [by eexists|].
  destruct (lookup_lt_is_Some_2 cmd 1) as [m Hm]; [lia|].
  destruct (usi_to_uci_move_total m) as [m' Hm'].
  unfold Py.index. rewrite Hm. cbn [mbind result_bind]. rewrite Hm'.
  eexists. split; [reflexivity|]. apply length_insert.
Qed.

Lemma usi_to_uci_option_length (cmd : list string) :
  ∃ out, usi_to_uci_option cmd = Ok out ∧ length out = length cmd.
Proof.
  unfold usi_to_uci_option. destruct (decide _) as [Hguard|Hguard]; [by eexists|].
  destruct (lookup_lt_is_Some_2 cmd 2) as [n Hn].
  { destruct (decide (length cmd < 3)%nat); [|lia]. exfalso. apply Hguard. by left. }
  unfold Py.index. rewrite Hn. cbn [mbind result_bind].
  destruct (decide _); eexists; (split; [reflexivity|]);
    by rewrite ?length_insert.
Qed.

Lemma usi_to_uci_info_length (cmd : list string) :
  ∃ out, usi_to_uci_info cmd = Ok out ∧ length out = length cmd.
Proof.
  destruct (info_loop_frame cmd false false) as (out & Hout & _ & Hall).
  exists out. split; [done|]. symmetry. by eapply Forall2_length.
Qed.




Lemma usi_to_uci_keeps_length_aux (cmd : list string) :
  cmd ≠ [] → ∃ out, usi_to_uci cmd = Ok out ∧ length out = length cmd.
Proof.
  intros Hcmd. destruct cmd as [|verb rest]; [done|].
  unfold usi_to_uci. change (Py.index (verb :: rest) 0) with (Ok verb).
  cbn [mbind result_bind].
  destruct (USI_TO_UCI !! verb) as [f|] eqn:Hf; [|by eexists].
  apply (elem_of_list_to_map_2 (M := gmap string)) in Hf.
  rewrite !elem_of_cons in Hf.
  destruct Hf as [[= -> ->]|[[= -> ->]|[[= -> ->]|[[= -> ->]|Hf]]]].
  - by eexists.
  - apply usi_to_uci_bestmove_length.
  - apply usi_to_uci_info_length.
  - apply usi_to_uci_option_length.
  - by apply elem_of_nil in Hf.
Qed.

(** X19. The engine-to-controller dispatcher raises on the empty command
    only ([IndexError], from [cmd[0]]); on every other command it returns
    a command of the same number of tokens, whatever the verb. *)
Theorem usi_to_uci_keeps_length (cmd : list string) :
  match cmd with
  | [] => usi_to_uci cmd = Raise IndexError
  | _ :: _ => ∃ out, usi_to_uci cmd = Ok out ∧ length out = length cmd
  end.
Proof. destruct cmd; [done|]. by apply usi_to_uci_keeps_length_aux. Qed.



(** X21. The three verbs that are renamed only: the verb is replaced and
    every other token of the command is returned as it is. *)
Theorem verb_renames (rest : list string) :
  usi_to_uci ("usiok" :: rest) = Ok ("uciok" :: rest)
  ∧ uci_to_usi ("uci" :: rest) = Ok ("usi" :: rest)
  ∧ uci_to_usi ("ucinewgame" :: rest) = Ok ("usinewgame" :: rest).
Proof. repeat split; reflexivity. Qed.

Lemma join_split_fields (sep : ascii) (s : string) :
  Py.join (String sep "") (Py.split sep s) = s.
Proof.
  unfold Py.split. induction s as [|c s IH]; [done|]. cbn [Py.split_fields].
  destruct (Py.split_fields sep s) as [w ws].
  destruct (decide (c = sep)) as [->|Hc].
  - change (Py.join (String sep "") ("" :: w :: ws))
      with (String sep (Py.join (String sep "") (w :: ws))). by rewrite IH.
  - rewrite <- IH. by destruct ws.
Qed.


(** X23. A line whose first token is a verb of neither entry of the
    direction's table is written as it was read, with the white space at
    its end replaced by one newline: splitting at the spaces and joining
    with spaces gives every run of spaces back. *)
Theorem line_pass_through (line verb : string) :
  Py.split " " (Py.rstrip line) !! 0%nat = Some verb →
  (verb ∉ dom USI_TO_UCI → process_lines_line line = Ok (Py.rstrip line +:+ newline))
  ∧ (verb ∉ dom UCI_TO_USI → main_cli_line line = Ok (Py.rstrip line +:+ newline)).
Proof.
  intros Hverb.
  split; intros Hdom; apply not_elem_of_dom in Hdom.
  - unfold process_lines_line, usi_to_uci, Py.index. rewrite Hverb.
    cbn [mbind result_bind]. rewrite Hdom. cbn [mbind result_bind mret result_ret].
    by rewrite (join_split_fields " ").
  - unfold main_cli_line, uci_to_usi, Py.index. rewrite Hverb.
    cbn [mbind result_bind]. rewrite Hdom. cbn [mbind result_bind mret result_ret].
    by rewrite (join_split_fields " ").
Qed.

Lemma line_pass_through_witness :
  process_lines_line ("readyok" +:+ newline) = Ok ("readyok" +:+ newline)
  ∧ main_cli_line ("go  depth 3 " +:+ newline) = Ok ("go  depth 3" +:+ newline).
Proof.
  split.
  - destruct (line_pass_through ("readyok" +:+ newline) "readyok") as [H _];
      [reflexivity|]. apply H. apply not_elem_of_dom. vm_compute. reflexivity.
  - destruct (line_pass_through ("go  depth 3 " +:+ newline) "go") as [_ H];
      [reflexivity|]. apply H. apply not_elem_of_dom. vm_compute. reflexivity.
Defined.

(** X24. The two move transforms differ in the drop marker only: on every
    token whose second character is neither [*] nor [@] they return the
    same string. *)
Theorem move_transforms_agree (move : string) :
  String.get 1 move ≠ Some "*"%char → String.get 1 move ≠ Some "@"%char →
  usi_to_uci_move move = uci_to_usi_move move.
Proof.
  intros Hstar Hat. unfold usi_to_uci_move, uci_to_usi_move.
  destruct (decide _); [done|]. f_equal.
  unfold usi_to_uci_move_try, uci_to_usi_move_try.
  destruct move as [|c0 [|c1 rest]]; [done|done|].
  cbn [Py.getitem String.get mbind result_bind] in *.
  rewrite !decide_False by congruence.
  by rewrite !square_transforms_coincide_chars.
Qed.

Lemma move_transforms_agree_witness :
  usi_to_uci_move "7g7f+" = uci_to_usi_move "7g7f+".
Proof. apply (move_transforms_agree "7g7f+"); discriminate. Defined.
